(** * dirigera_platform: the patched hub client (dirigera_lib_patch.py)

    A shallow embedding of [HubX], [HackScene] and the patched device
    classes, and the properties of the empty-scene provisioner
    ([create_empty_scene] / [delete_empty_scenes]), of the typed device
    getters and of [set_name].

    Conventions of the embedding.
    - A Python [str] is a [string]; a character is an [ascii] (code points
      below 256).
    - A Python value that travels as JSON (request payloads, hub answers,
      the loosely typed [number_of_buttons] argument) is a [value].
    - A method is a computation in the monad [M]: it reads and updates the
      object it is called on, issues calls to the hub and either returns or
      raises.  The hub itself is external: its answer to a call is given by
      a function of type [Hub] that sees the calls issued so far.
    - Python strings with code points above 255 are outside the model. *)

From Stdlib Require Import String Ascii List ZArith Bool Lia DecimalString.
From Stdlib Require Import SpecFloat DecimalZ DecimalPos.
Import ListNotations.

Set Warnings "-register-all".

Local Open Scope string_scope.
Local Open Scope Z_scope.
Local Open Scope list_scope.

(* ================================================================== *)
(** ** Python values and exceptions *)

(** A Python [float]. *)
Definition float : Type := SpecFloat.spec_float.

(** The values of the JSON fragment of Python.  A [dict] keeps its items
    in insertion order; its keys are strings and pairwise distinct. *)
Inductive value : Type :=
  | VNone
  | VBool (b : bool)
  | VInt (n : Z)
  | VFloat (x : float)
  | VStr (s : string)
  | VList (items : list value)
  | VDict (items : list (string * value)).

(** An exception raised inside the external client library or its model
    classes (transport errors, a device the hub does not know, model
    validation): what it says, and whether its class is [ValueError] or a
    subclass of it, as [pydantic]'s [ValidationError] is.  Nothing in this
    module catches such an exception, so nothing else about its class
    matters here. *)
Record fault : Type := {
  value_error : bool;
  text : string
}.

(** A fault of a class that is no [ValueError], given by its text. *)
Definition plain_fault (text : string) : fault :=
  {| value_error := false; text := text |}.
Coercion plain_fault : string >-> fault.

(** The exceptions the module can end with.  [ValueError] and
    [AssertionError] are the two raised by the module's own [raise]
    statements and by the builtins; [OverflowError], [KeyError],
    [TypeError] and [AttributeError] come from the builtin operations it
    applies to its arguments and to hub data; [ExternalError] stands for
    anything raised inside the external client library or its model
    classes. *)
Inductive exn : Type :=
  | ValueError (msg : string)
  | AssertionError (msg : string)
  | OverflowError (msg : string)
  | KeyError (key : string)
  | TypeError (msg : string)
  | AttributeError (msg : string)
  | ExternalError (msg : fault).

Inductive result (A : Type) : Type :=
  | Ok (a : A)
  | Raise (e : exn).
Arguments Ok {A} a.
Arguments Raise {A} e.

(* ================================================================== *)
(** ** Strings *)

Module Str.

Definition newline : ascii := "010"%char.
Definition underscore : ascii := "_"%char.

(** [c in "0123456789"] *)
Definition is_digit (c : ascii) : bool :=
  let n := nat_of_ascii c in (48 <=? n)%nat && (n <=? 57)%nat.

Definition digit_val (c : ascii) : Z := Z.of_nat (nat_of_ascii c) - 48.

(** [s.startswith(p)] *)
Fixpoint startswith (s p : string) {struct p} : bool :=
  match p with
  | EmptyString => true
  | String a p' =>
      match s with
      | EmptyString => false
      | String b s' => Ascii.eqb a b && startswith s' p'
      end
  end.

(** [c in s] for a character [c] *)
Fixpoint contains (c : ascii) (s : string) : bool :=
  match s with
  | EmptyString => false
  | String a s' => Ascii.eqb a c || contains c s'
  end.

Fixpoint all (p : ascii -> bool) (s : string) : bool :=
  match s with
  | EmptyString => true
  | String a s' => p a && all p s'
  end.

(** [s[-1]], if any *)
Fixpoint last (s : string) : option ascii :=
  match s with
  | EmptyString => None
  | String a EmptyString => Some a
  | String _ s' => last s'
  end.

(** [str(n)] for an [int] *)
Definition of_Z (n : Z) : string := NilZero.string_of_int (Z.to_int n).

(** The interpreter's limit on the digits of an [int] converted from or to
    a decimal string: [sys.get_int_max_str_digits()], 4300 by default. *)
Definition int_max_str_digits : nat := 4300.

(** The least positive [int] with more digits than the limit: 10 to the
    power 4300. *)
Definition int_str_bound : Z := Eval vm_compute in 10 ^ 4300.

(** [n] has no more decimal digits than the limit. *)
Definition fits (n : Z) : bool := Z.abs n <? int_str_bound.

(** [str(n)], [repr(n)] and the formatting of an [int] in an f-string, with
    the limit: [ValueError] on an [int] of more than 4300 digits. *)
Definition limit_error : exn :=
  ValueError "Exceeds the limit (4300 digits) for integer string conversion".

Definition format_int (n : Z) : result string :=
  if fits n then Ok (of_Z n) else Raise limit_error.

(** The digit characters of a string, counted. *)
Fixpoint count_digits (s : string) : nat :=
  match s with
  | EmptyString => 0
  | String c s' => if is_digit c then S (count_digits s') else count_digits s'
  end.

Fixpoint rev_onto (s acc : string) : string :=
  match s with
  | EmptyString => acc
  | String a s' => rev_onto s' (String a acc)
  end.

Definition rev (s : string) : string := rev_onto s EmptyString.

(** The whitespace [int] skips around a literal, below code point 256:
    tab to carriage return, space, NEL and the no-break space. *)
Definition is_space (c : ascii) : bool :=
  let n := nat_of_ascii c in
  ((9 <=? n) && (n <=? 13) || (n =? 32) || (n =? 133) || (n =? 160))%nat.

Fixpoint lstrip (s : string) : string :=
  match s with
  | EmptyString => EmptyString
  | String a s' => if is_space a then lstrip s' else s
  end.

(** [s] without the whitespace around it *)
Definition strip (s : string) : string := rev (lstrip (rev (lstrip s))).

End Str.

Arguments Str.startswith : simpl never.

(* ================================================================== *)
(** ** The regular expression of [create_empty_scene]

    The pattern is: start anchor, group 1 (any characters, greedy star),
    an underscore, group 2 (one or more of 0-9, greedy), end anchor; it is
    searched in [controller_id] with [re.search] and no flags.  The
    matcher below is the backtracking matcher of [re] specialised to the
    shapes this pattern is made of; each item hands the rest of the subject
    to a continuation and a failed continuation makes the item give back
    one character.
    - [^] matches at the start of the subject only;
    - [.] matches any character but a newline;
    - both repetitions are greedy;
    - [$] matches at the end of the subject and also just before a newline
      that is the last character of the subject. *)
Module Re.

(** A successful match: the text of groups 1 and 2. *)
Record Match : Type := { group1 : string; group2 : string }.

(** [.] *)
Definition dot (c : ascii) : bool := negb (Ascii.eqb c Str.newline).

(** [$] with the rest of the subject at hand *)
Definition at_dollar (rest : string) : bool :=
  match rest with
  | EmptyString => true
  | String c EmptyString => Ascii.eqb c Str.newline
  | _ => false
  end.

(** A starred class in a group, then [k]: the longest run of [cls] first, one character
    less on each failure of [k].  [taken] is the text already in the
    group. *)
Fixpoint star {A : Type} (cls : ascii -> bool)
    (k : string -> string -> option A) (taken rest : string) : option A :=
  match rest with
  | EmptyString => k taken rest
  | String c rest' =>
      if cls c then
        match star cls k (taken ++ String c EmptyString)%string rest' with
        | Some m => Some m
        | None => k taken rest
        end
      else k taken rest
  end.

(** A class repeated one or more times in a group, then [k]. *)
Definition plus {A : Type} (cls : ascii -> bool)
    (k : string -> string -> option A) (rest : string) : option A :=
  match rest with
  | EmptyString => None
  | String c rest' =>
      if cls c then star cls k (String c EmptyString) rest' else None
  end.

(** a literal character then [k] *)
Definition lit {A : Type} (a : ascii) (k : string -> option A)
    (rest : string) : option A :=
  match rest with
  | EmptyString => None
  | String c rest' => if Ascii.eqb c a then k rest' else None
  end.

(** The whole pattern tried at offset [pos] of the subject, [rest] being
    the subject from that offset on. *)
Definition match_at (pos : nat) (rest : string) : option Match :=
  if (pos =? 0)%nat then
    star dot
      (fun g1 => lit Str.underscore
         (plus Str.is_digit
            (fun g2 rest2 =>
               if at_dollar rest2
               then Some {| group1 := g1; group2 := g2 |}
               else None)))
      EmptyString rest
  else None.

(** [re.search]: the first offset at which the pattern matches. *)
Fixpoint search_from (pos : nat) (rest : string) : option Match :=
  match match_at pos rest with
  | Some m => Some m
  | None =>
      match rest with
      | EmptyString => None
      | String _ rest' => search_from (S pos) rest'
      end
  end.

Definition search (subject : string) : option Match := search_from 0 subject.

End Re.

(* ================================================================== *)
(** ** [int(x)] *)

Module Int.

(** The digits of a decimal literal after its first digit: digits, each
    optionally preceded by one underscore. *)
Fixpoint digits_tail (acc : Z) (s : string) : option Z :=
  match s with
  | EmptyString => Some acc
  | String c s' =>
      if Str.is_digit c then digits_tail (10 * acc + Str.digit_val c) s'
      else if Ascii.eqb c Str.underscore then
        match s' with
        | EmptyString => None
        | String d s'' =>
            if Str.is_digit d
            then digits_tail (10 * acc + Str.digit_val d) s''
            else None
        end
      else None
  end.

Definition digits (s : string) : option Z :=
  match s with
  | EmptyString => None
  | String c s' =>
      if Str.is_digit c then digits_tail (Str.digit_val c) s' else None
  end.

(** A decimal literal of no more digits than the limit; leading zeros
    count, underscores do not. *)
Definition literal (s : string) : option Z :=
  if (Str.count_digits s <=? Str.int_max_str_digits)%nat then digits s else None.

(** [int(s)] for a [str]: surrounding whitespace, an optional sign, a
    decimal literal. *)
Definition of_string (s : string) : option Z :=
  match Str.strip s with
  | String "+" s' => literal s'
  | String "-" s' => option_map Z.opp (literal s')
  | s' => literal s'
  end.

(** [int(x)] for a [float]: the integer part, towards zero. *)
Definition of_float (x : float) : result Z :=
  match x with
  | SpecFloat.S754_zero _ => Ok 0
  | SpecFloat.S754_finite sign m e =>
      let magnitude :=
        if 0 <=? e then Z.shiftl (Z.pos m) e else Z.shiftr (Z.pos m) (- e) in
      Ok (if sign then - magnitude else magnitude)
  | SpecFloat.S754_infinity _ =>
      Raise (OverflowError "cannot convert float infinity to integer")
  | SpecFloat.S754_nan => Raise (ValueError "cannot convert float NaN to integer")
  end.

(** [int(x)]; raises [ValueError] on a string that is no literal,
    [OverflowError] or [ValueError] on a float that is no number and
    [TypeError] on a value of another type. *)
Definition int (x : value) : result Z :=
  match x with
  | VInt n => Ok n
  | VBool b => Ok (if b then 1 else 0)
  | VFloat x => of_float x
  | VStr s =>
      match of_string s with
      | Some n => Ok n
      | None =>
        Raise (ValueError "invalid literal for int() with base 10, or too many digits")
      end
  | VNone | VList _ | VDict _ =>
      Raise (TypeError "int() argument must be a string or a real number")
  end.

End Int.

(* ================================================================== *)
(** ** Builtin operations on values *)

Module Py.

Fixpoint assoc (k : string) (items : list (string * value)) : option value :=
  match items with
  | [] => None
  | (k', v) :: items' => if String.eqb k' k then Some v else assoc k items'
  end.

(** [d[k]] for a string key [k] *)
Definition getitem (d : value) (k : string) : result value :=
  match d with
  | VDict items =>
      match assoc k items with
      | Some v => Ok v
      | None => Raise (KeyError k)
      end
  | VList _ => Raise (TypeError "list indices must be integers or slices, not str")
  | VStr _ => Raise (TypeError "string indices must be integers, not 'str'")
  | VNone | VBool _ | VInt _ | VFloat _ =>
      Raise (TypeError "object is not subscriptable")
  end.

Fixpoint chars (s : string) : list value :=
  match s with
  | EmptyString => []
  | String c s' => VStr (String c EmptyString) :: chars s'
  end.

(** The elements [for x in v] runs over. *)
Definition iter (v : value) : result (list value) :=
  match v with
  | VList items => Ok items
  | VDict items => Ok (map (fun kv => VStr (fst kv)) items)
  | VStr s => Ok (chars s)
  | VNone | VBool _ | VInt _ | VFloat _ =>
      Raise (TypeError "object is not iterable")
  end.

(** [v == s] for a string literal [s] *)
Definition eq_str (v : value) (s : string) : bool :=
  match v with
  | VStr t => String.eqb t s
  | _ => false
  end.

(** [v.startswith(p)] *)
Definition startswith (v : value) (p : string) : result bool :=
  match v with
  | VStr s => Ok (Str.startswith s p)
  | _ => Raise (AttributeError "object has no attribute 'startswith'")
  end.

(** [range(lo, hi)] *)
Definition range (lo hi : Z) : list Z :=
  map (fun i => lo + Z.of_nat i) (seq 0 (Z.to_nat (hi - lo))).

(** [s in l] for a list of strings *)
Definition mem (s : string) (l : list string) : bool :=
  existsb (String.eqb s) l.

(** [list(filter(p, l))] for a test [p] that may raise: the first element
    on which it raises ends the filtering. *)
Fixpoint filter_by {A : Type} (p : A -> result bool) (l : list A) : result (list A) :=
  match l with
  | [] => Ok []
  | a :: l' =>
      match p a with
      | Raise e => Raise e
      | Ok keep =>
          match filter_by p l' with
          | Raise e => Raise e
          | Ok kept => Ok (if keep then a :: kept else kept)
          end
      end
  end.

(** [**data] in a call: [data] has to be a mapping. *)
Definition kwargs (data : value) : result value :=
  match data with
  | VDict _ => Ok data
  | _ => Raise (TypeError "argument after ** must be a mapping")
  end.

End Py.

(* ================================================================== *)
(** ** The hub and the monad of methods *)

(** The requests this module sends to the hub through the client library.
    [Get], [Post] and [Patch] are the methods of [AbstractSmartHomeHub];
    [DeleteScene] and [GetDeviceDataById] are [Hub.delete_scene] and
    [Hub._get_device_data_by_id] of the client library. *)
Inductive Call : Type :=
  | Get (route : string)
  | Post (route : string) (data : value)
  | Patch (route : string) (data : value)
  | DeleteScene (scene_id : value)
  | GetDeviceDataById (id_ : string).

Inductive answer : Type :=
  | Returns (v : value)
  | Fails (msg : fault).

(** The hub as this module sees it: its answer to a call, given the calls
    issued before it. *)
Definition Hub : Type := list Call -> Call -> answer.

(** What running a method gives: its result, the object it ran on as it is
    afterwards, and the calls it issued, oldest first. *)
Record outcome (X A : Type) : Type := Outcome {
  res : result A;
  self_after : X;
  issued : list Call
}.
Arguments Outcome {X A} res self_after issued.
Arguments res {X A} o.
Arguments self_after {X A} o.
Arguments issued {X A} o.

(** A method of an object of type [X] with a result in [A], run against a
    hub, on the object, after a history of calls. *)
Definition M (X A : Type) : Type := Hub -> X -> list Call -> outcome X A.

Definition ret {X A : Type} (a : A) : M X A :=
  fun _ self _ => Outcome (Ok a) self [].

Definition raise {X A : Type} (e : exn) : M X A :=
  fun _ self _ => Outcome (Raise e) self [].

Definition bind {X A B : Type} (m : M X A) (f : A -> M X B) : M X B :=
  fun hub self history =>
    let o := m hub self history in
    match res o with
    | Raise e => Outcome (Raise e) (self_after o) (issued o)
    | Ok a =>
        let o' := f a hub (self_after o) (history ++ issued o) in
        Outcome (res o') (self_after o') (issued o ++ issued o')
    end.

Declare Scope method_scope.
Delimit Scope method_scope with method.
Notation "x <- m ;; k" := (bind m (fun x => k))
  (at level 61, m at next level, right associativity) : method_scope.
Notation "m ;; k" := (bind m (fun _ => k))
  (at level 61, right associativity) : method_scope.
Local Open Scope method_scope.

(** A pure operation that may raise. *)
Definition lift {X A : Type} (r : result A) : M X A :=
  match r with
  | Ok a => ret a
  | Raise e => raise e
  end.

(** One request to the hub. *)
Definition call {X : Type} (c : Call) : M X value :=
  fun hub self history =>
    match hub history c with
    | Returns v => Outcome (Ok v) self [c]
    | Fails msg => Outcome (Raise (ExternalError msg)) self [c]
    end.

Definition get_self {X : Type} : M X X :=
  fun _ self _ => Outcome (Ok self) self [].

Definition put_self {X : Type} (self' : X) : M X unit :=
  fun _ _ _ => Outcome (Ok tt) self' [].

(** [for a in l: body(a)] *)
Fixpoint for_each {X A : Type} (l : list A) (body : A -> M X unit) : M X unit :=
  match l with
  | [] => ret tt
  | a :: l' => body a ;; for_each l' body
  end.

(** [[f(a) for a in l]] *)
Fixpoint comprehension {X A B : Type} (l : list A) (f : A -> M X B) : M X (list B) :=
  match l with
  | [] => ret []
  | a :: l' => b <- f a ;; bs <- comprehension l' f ;; ret (b :: bs)
  end.

(** The interface of the client library's model classes: a class is built
    from the keyword arguments of a hub record and the construction
    validates them. *)
Class Model (A : Type) : Type := {
  model_validate : value -> option A
}.

(** The exception of a failed validation: the library's [ValidationError],
    a subclass of [ValueError]. *)
Definition validation_error : fault :=
  {| value_error := true; text := "validation error" |}.

(** A model class whose construction is [model_validate]: exceptions of
    the validation are the library's. *)
Definition construct {X A : Type} {model : Model A} (data : value) : M X A :=
  match model_validate data with
  | Some a => ret a
  | None => raise (ExternalError validation_error)
  end.

(* ================================================================== *)
(** ** Devices *)

(** [dirigera.devices.device]: the fields of [Capabilities], [Attributes]
    and [Device] this module reads or writes. *)
Record Capabilities : Type := {
  can_send : list string;
  can_receive : list string
}.

Module Device.
Record t (A : Type) : Type := {
  id : string;
  capabilities : Capabilities;
  attributes : A
}.
Arguments id {A} _.
Arguments capabilities {A} _.
Arguments attributes {A} _.

Definition with_attributes {A : Type} (a : A) (d : t A) : t A :=
  {| id := id d; capabilities := capabilities d; attributes := a |}.
End Device.

Module EnvironmentSensorAttributesX.
Record t : Type := {
  custom_name : string;
  current_temperature : option float;
  current_r_h : option Z;
  current_p_m25 : option Z;
  max_measured_p_m25 : option Z;
  min_measured_p_m25 : option Z;
  voc_index : option Z;
  battery_percentage : option Z;
  current_c_o2 : option Z
}.

Definition set_custom_name (name : string) (a : t) : t :=
  {| custom_name := name;
     current_temperature := current_temperature a;
     current_r_h := current_r_h a;
     current_p_m25 := current_p_m25 a;
     max_measured_p_m25 := max_measured_p_m25 a;
     min_measured_p_m25 := min_measured_p_m25 a;
     voc_index := voc_index a;
     battery_percentage := battery_percentage a;
     current_c_o2 := current_c_o2 a |}.
End EnvironmentSensorAttributesX.

Module EnvironmentSensorX.
Definition t : Type := Device.t EnvironmentSensorAttributesX.t.

Definition reload {model : Model t} : M t t :=
  self <- get_self ;;
  data <- call (Get ("/devices/" ++ Device.id self)) ;;
  data <- lift (Py.kwargs data) ;;
  construct data.

Definition set_name (name : string) : M t unit :=
  self <- get_self ;;
  if negb (Py.mem "customName" (can_receive (Device.capabilities self))) then
    raise (AssertionError "This sensor does not support the set_name function")
  else
    let data := VList [VDict [("attributes", VDict [("customName", VStr name)])]] in
    call (Patch ("/devices/" ++ Device.id self) data) ;;
    self <- get_self ;;
    put_self
      (Device.with_attributes
         (EnvironmentSensorAttributesX.set_custom_name name (Device.attributes self))
         self).
End EnvironmentSensorX.

Definition dict_to_environment_sensor_x {X : Type} {model : Model EnvironmentSensorX.t}
    (data : value) : M X EnvironmentSensorX.t :=
  construct data.

Module ControllerAttributesX.
Record t : Type := {
  custom_name : string;
  is_on : option bool;
  battery_percentage : option Z;
  switch_label : option string
}.

Definition set_custom_name (name : string) (a : t) : t :=
  {| custom_name := name;
     is_on := is_on a;
     battery_percentage := battery_percentage a;
     switch_label := switch_label a |}.
End ControllerAttributesX.

Module ControllerX.
Definition t : Type := Device.t ControllerAttributesX.t.

Definition reload {model : Model t} : M t t :=
  self <- get_self ;;
  data <- call (Get ("/devices/" ++ Device.id self)) ;;
  data <- lift (Py.kwargs data) ;;
  construct data.

Definition set_name (name : string) : M t unit :=
  self <- get_self ;;
  if negb (Py.mem "customName" (can_receive (Device.capabilities self))) then
    raise (AssertionError "This controller does not support the set_name function")
  else
    let data := VList [VDict [("attributes", VDict [("customName", VStr name)])]] in
    call (Patch ("/devices/" ++ Device.id self) data) ;;
    self <- get_self ;;
    put_self
      (Device.with_attributes
         (ControllerAttributesX.set_custom_name name (Device.attributes self))
         self).
End ControllerX.

Module MotionSensorAttributesX.
Record t : Type := {
  custom_name : string;
  battery_percentage : option Z;
  is_on : option bool;
  light_level : option float;
  is_detected : option bool
}.

Definition set_custom_name (name : string) (a : t) : t :=
  {| custom_name := name;
     battery_percentage := battery_percentage a;
     is_on := is_on a;
     light_level := light_level a;
     is_detected := is_detected a |}.
End MotionSensorAttributesX.

Module MotionSensorX.
Definition t : Type := Device.t MotionSensorAttributesX.t.

Definition reload {model : Model t} : M t t :=
  self <- get_self ;;
  data <- call (Get ("/devices/" ++ Device.id self)) ;;
  data <- lift (Py.kwargs data) ;;
  construct data.

Definition set_name (name : string) : M t unit :=
  self <- get_self ;;
  if negb (Py.mem "customName" (can_receive (Device.capabilities self))) then
    raise (AssertionError "This sensor does not support the set_name function")
  else
    let data := VList [VDict [("attributes", VDict [("customName", VStr name)])]] in
    call (Patch ("/devices/" ++ Device.id self) data) ;;
    self <- get_self ;;
    put_self
      (Device.with_attributes
         (MotionSensorAttributesX.set_custom_name name (Device.attributes self))
         self).
End MotionSensorX.

Definition dict_to_motion_sensor_x {X : Type} {model : Model MotionSensorX.t}
    (data : value) : M X MotionSensorX.t :=
  construct data.

(* ================================================================== *)
(** ** Scenes *)

Module HackScene.
Record t : Type := {
  id : value;
  name : value;
  icon : value
}.

Definition parse_scene_json (json_data : value) : result (value * value * value) :=
  match Py.getitem json_data "id" with
  | Raise e => Raise e
  | Ok id =>
      match Py.getitem json_data "info" with
      | Raise e => Raise e
      | Ok info =>
          match Py.getitem info "name" with
          | Raise e => Raise e
          | Ok name =>
              match Py.getitem json_data "info" with
              | Raise e => Raise e
              | Ok info' =>
                  match Py.getitem info' "icon" with
                  | Raise e => Raise e
                  | Ok icon => Ok (id, name, icon)
                  end
              end
          end
      end
  end.

Definition make_scene (json_data : value) : result t :=
  match parse_scene_json json_data with
  | Raise e => Raise e
  | Ok (id, name, icon) => Ok {| id := id; name := name; icon := icon |}
  end.

(** [reload] reads [self.dirigera_client], an attribute that [__init__]
    does not set (it sets [hub], [id], [name] and [icon]). *)
Definition reload : M t t :=
  raise (AttributeError "'HackScene' object has no attribute 'dirigera_client'").
End HackScene.

(* ================================================================== *)
(** ** The patched hub *)

Record HubX : Type := {
  token : string;
  ip_address : string;
  port : string;
  api_version : string
}.

Definition marker : string := "dirigera_integration_empty_scene_".

Definition get_scenes : M HubX (list HackScene.t) :=
  scenes <- call (Get "/scenes") ;;
  items <- lift (Py.iter scenes) ;;
  comprehension items (fun scene => lift (HackScene.make_scene scene)).

(** The name and the payload built by the local function of
    [create_empty_scene]; [controller_id] is the variable of the enclosing
    call. *)
Definition scene_name (controller_id click_pattern controller_type : string)
    (button_index : Z) : string :=
  ("dirigera_integration_empty_scene_" ++ controller_id ++ "_"
     ++ controller_type ++ "_" ++ Str.of_Z button_index ++ "_"
     ++ click_pattern)%string.

Definition scene_data (controller_id click_pattern controller_type : string)
    (button_index : Z) : value :=
  VDict
    [ ("info",
        VDict
          [ ("name",
              VStr (scene_name controller_id click_pattern controller_type button_index));
            ("icon", VStr "scenes_cake") ]);
      ("type", VStr "customScene");
      ("triggers",
        VList
          [ VDict
              [ ("type", VStr "controller");
                ("disabled", VBool false);
                ("trigger",
                  VDict
                    [ ("controllerType", VStr controller_type);
                      ("clickPattern", VStr click_pattern);
                      ("buttonIndex", VInt button_index);
                      ("deviceId", VStr controller_id) ]) ] ]);
      ("actions", VList []) ].

Definition _post_empty_scene (controller_id : string)
    (click_pattern controller_type : string) (button_index : Z) : M HubX unit :=
  let data := scene_data controller_id click_pattern controller_type button_index in
  call (Post "/scenes/" data) ;;
  ret tt.

(** [number_of_buttons] as [create_empty_scene] coerces it: the [try]
    block with its [except Exception]. *)
Definition coerce_buttons (number_of_buttons : value) : Z :=
  match
    match number_of_buttons with
    | VNone => Ok 1
    | v => Int.int v
    end
  with
  | Ok n => n
  | Raise _ => 1
  end.

(** The flag [allow_multibutton] once the suffix of [controller_id] has
    been looked at. *)
Definition allow_multibutton (controller_id : string) (number_of_buttons : Z) : bool :=
  let allow_multibutton := number_of_buttons >? 1 in
  let m := Re.search controller_id in
  match m with
  | Some m => if negb (String.eqb (Re.group2 m) "1") then false else allow_multibutton
  | None => allow_multibutton
  end.

(** The f-string of the first [logger.debug] of [create_empty_scene],
    evaluated before the call whatever the logging level: [controller_id]
    and [clicks_supported], a [str] and a list of [str], always format,
    [number_of_buttons] formats as an [int] does.  The text itself goes to
    the log and is not kept. *)
Definition debug_line (controller_id : string) (clicks_supported : list string)
    (number_of_buttons : Z) : result unit :=
  match Str.format_int number_of_buttons with
  | Ok _ => Ok tt
  | Raise e => Raise e
  end.

Definition create_empty_scene (controller_id : string)
    (clicks_supported : list string) (number_of_buttons : value) : M HubX unit :=
  let number_of_buttons := coerce_buttons number_of_buttons in
  lift (debug_line controller_id clicks_supported number_of_buttons) ;;
  let allow_multibutton := allow_multibutton controller_id number_of_buttons in
  for_each clicks_supported (fun click =>
    _post_empty_scene controller_id click "shortcutController" 0 ;;
    if allow_multibutton then
      for_each (Py.range 1 (number_of_buttons + 1)) (fun btn_idx =>
        _post_empty_scene controller_id click "lightController" btn_idx)
    else ret tt).

Definition delete_empty_scenes : M HubX unit :=
  scenes <- get_scenes ;;
  for_each scenes (fun scene =>
    marked <- lift (Py.startswith (HackScene.name scene) "dirigera_integration_empty_scene_") ;;
    if marked then call (DeleteScene (HackScene.id scene)) ;; ret tt
    else ret tt).

Definition get_motion_sensor_by_id {model : Model MotionSensorX.t} (id_ : string)
    : M HubX MotionSensorX.t :=
  motion_sensor <- call (GetDeviceDataById id_) ;;
  device_type <- lift (Py.getitem motion_sensor "deviceType") ;;
  if negb (Py.eq_str device_type "motionSensor" || Py.eq_str device_type "occupancySensor")
  then raise (ValueError "Device is not a MotionSensor or OccupancySensor")
  else dict_to_motion_sensor_x motion_sensor.

Definition get_environment_sensor_by_id {model : Model EnvironmentSensorX.t} (id_ : string)
    : M HubX EnvironmentSensorX.t :=
  sensor <- call (GetDeviceDataById id_) ;;
  device_type <- lift (Py.getitem sensor "deviceType") ;;
  if negb (Py.eq_str device_type "environmentSensor")
  then raise (ValueError "Device is not an EnvironmentSensor")
  else dict_to_environment_sensor_x sensor.

Definition dict_to_controller {X : Type} {model : Model ControllerX.t}
    (data : value) : M X ControllerX.t :=
  construct data.

Definition get_controllers {model : Model ControllerX.t} : M HubX (list ControllerX.t) :=
  devices <- call (Get "/devices") ;;
  items <- lift (Py.iter devices) ;;
  controllers <-
    lift (Py.filter_by
            (fun x =>
               match Py.getitem x "type" with
               | Ok t => Ok (Py.eq_str t "controller")
               | Raise e => Raise e
               end)
            items) ;;
  comprehension controllers (fun controller => dict_to_controller controller).

Definition get_scene_by_id (scene_id : string) : M HubX HackScene.t :=
  data <- call (Get ("/scenes/" ++ scene_id)) ;;
  lift (HackScene.make_scene data).

Definition get_motion_sensors {model : Model MotionSensorX.t}
    : M HubX (list MotionSensorX.t) :=
  devices <- call (Get "/devices") ;;
  items <- lift (Py.iter devices) ;;
  sensors <-
    lift (Py.filter_by
            (fun x =>
               match Py.getitem x "deviceType" with
               | Ok t => Ok (Py.eq_str t "motionSensor" || Py.eq_str t "occupancySensor")
               | Raise e => Raise e
               end)
            items) ;;
  comprehension sensors (fun sensor => dict_to_motion_sensor_x sensor).

Definition get_environment_sensors {model : Model EnvironmentSensorX.t}
    : M HubX (list EnvironmentSensorX.t) :=
  devices <- call (Get "/devices") ;;
  items <- lift (Py.iter devices) ;;
  sensors <-
    lift (Py.filter_by
            (fun x =>
               match Py.getitem x "deviceType" with
               | Ok t => Ok (Py.eq_str t "environmentSensor")
               | Raise e => Raise e
               end)
            items) ;;
  comprehension sensors (fun sensor => dict_to_environment_sensor_x sensor).

(** The default of the parameter [number_of_buttons]. *)
Definition create_empty_scene_default (controller_id : string)
    (clicks_supported : list string) : M HubX unit :=
  create_empty_scene controller_id clicks_supported (VInt 1).

(* ================================================================== *)
(** ** Vocabulary of the properties *)

(** Two methods that behave alike against every hub. *)
Definition same {X A : Type} (m1 m2 : M X A) : Prop :=
  forall hub self history, m1 hub self history = m2 hub self history.
Infix "~~" := same (at level 70, no associativity) : method_scope.

(** Issuing a list of calls one after the other, up to the first that
    fails. *)
Fixpoint send_all {X : Type} (cs : list Call) : M X unit :=
  match cs with
  | [] => ret tt
  | c :: cs' => call c ;; send_all cs'
  end.

(** A hub that answers every scene creation. *)
Definition accepts_posts (hub : Hub) : Prop :=
  forall history route data, exists v, hub history (Post route data) = Returns v.


(** The request that creates one empty scene. *)
Definition scene_request (controller_id click_pattern controller_type : string)
    (button_index : Z) : Call :=
  Post "/scenes/" (scene_data controller_id click_pattern controller_type button_index).

Definition legacy_request (controller_id click_pattern : string) : Call :=
  scene_request controller_id click_pattern "shortcutController" 0.

Definition button_request (controller_id click_pattern : string) (button_index : Z) : Call :=
  scene_request controller_id click_pattern "lightController" button_index.

(** The requests of one run of [create_empty_scene], in the order of its
    loops. *)
Definition scene_requests (controller_id : string) (clicks_supported : list string)
    (number_of_buttons : value) : list Call :=
  let n := coerce_buttons number_of_buttons in
  flat_map
    (fun click =>
       legacy_request controller_id click ::
       (if allow_multibutton controller_id n
        then map (button_request controller_id click) (Py.range 1 (n + 1))
        else []))
    clicks_supported.

(** Reading a scene-creation request back. *)
Module Request.

Definition field (v : value) (k : string) : option value :=
  match Py.getitem v k with
  | Ok x => Some x
  | Raise _ => None
  end.

Definition data (c : Call) : option value :=
  match c with
  | Post _ d => Some d
  | _ => None
  end.

(** [data["info"]["name"]] *)
Definition name (c : Call) : option string :=
  match data c with
  | Some d =>
      match field d "info" with
      | Some info =>
          match field info "name" with
          | Some (VStr s) => Some s
          | _ => None
          end
      | None => None
      end
  | None => None
  end.

(** [data["triggers"][0]["trigger"]] *)
Definition trigger (c : Call) : option value :=
  match data c with
  | Some d =>
      match field d "triggers" with
      | Some (VList (t :: _)) => field t "trigger"
      | _ => None
      end
  | None => None
  end.

Definition trigger_str (k : string) (c : Call) : option string :=
  match trigger c with
  | Some t =>
      match field t k with
      | Some (VStr s) => Some s
      | _ => None
      end
  | None => None
  end.

Definition controller_type : Call -> option string := trigger_str "controllerType".
Definition click_pattern : Call -> option string := trigger_str "clickPattern".
Definition device_id : Call -> option string := trigger_str "deviceId".

Definition button_index (c : Call) : option Z :=
  match trigger c with
  | Some t =>
      match field t "buttonIndex" with
      | Some (VInt n) => Some n
      | _ => None
      end
  | None => None
  end.

Definition is_legacy (c : Call) : bool :=
  match controller_type c with
  | Some s => String.eqb s "shortcutController"
  | None => false
  end.

Definition is_multibutton (c : Call) : bool :=
  match controller_type c with
  | Some s => String.eqb s "lightController"
  | None => false
  end.

(** The request creates a scene whose name carries the marker. *)
Definition marked (c : Call) : bool :=
  match c, name c with
  | Post "/scenes/" _, Some s => Str.startswith s marker
  | _, _ => false
  end.

(** The name of the scene is the one its own trigger determines. *)
Definition well_named (c : Call) : Prop :=
  exists id click type index,
    device_id c = Some id /\ click_pattern c = Some click /\
    controller_type c = Some type /\ button_index c = Some index /\
    name c =
      Some ("dirigera_integration_empty_scene" ++ "_" ++ id ++ "_" ++ type
              ++ "_" ++ Str.of_Z index ++ "_" ++ click)%string.

End Request.


(** The words of the docstring on controller ids. *)
Module Suffix.

(** [s] ends in [_N] for a number [N] written in digits. *)
Definition numeric (s : string) : Prop :=
  exists p d,
    s = (p ++ "_" ++ d)%string /\ d <> EmptyString /\ Str.all Str.is_digit d = true.

(** [s] ends in [t]. *)
Definition ends_with (s t : string) : Prop :=
  exists p, s = (p ++ t)%string.

(** The primary id: no suffix, or the suffix [_1]. *)
Definition primary (s : string) : Prop :=
  ~ numeric s \/ ends_with s "_1".

End Suffix.

(** What a match of the pattern is, as the [re] documentation reads it:
    the subject is group 1, an underscore, group 2 and then nothing or one
    final newline; group 1 has no newline in it and group 2 is one or more
    digits. *)
Definition matches (subject : string) (m : Re.Match) : Prop :=
  exists tail,
    Re.at_dollar tail = true /\
    subject = (Re.group1 m ++ String Str.underscore (Re.group2 m ++ tail))%string /\
    Str.all Re.dot (Re.group1 m) = true /\
    Re.group2 m <> EmptyString /\
    Str.all Str.is_digit (Re.group2 m) = true.

(** A hub that answers every request. *)
Definition quiet_hub : Hub := fun _ _ => Returns VNone.

Definition some_hub : HubX :=
  {| token := "token"; ip_address := "192.168.1.2"; port := "8443"; api_version := "v1" |}.

(** Two controller ids with a newline in them: ["abc_2"] followed by a
    newline, and ["a"], a newline, ["b_2"]. *)
Definition id_newline_last : string := ("abc_2" ++ String Str.newline "")%string.
Definition id_newline_inside : string := ("a" ++ String Str.newline "b_2")%string.

(** A hub with two scenes, one created by [create_empty_scene] and one of
    the user's. *)
Definition scene_record (id name : string) : value :=
  VDict
    [ ("id", VStr id);
      ("info", VDict [("name", VStr name); ("icon", VStr "scenes_cake")]);
      ("type", VStr "customScene") ].




(** Devices and hub records for the examples. *)
Definition renamable : Capabilities :=
  {| can_send := []; can_receive := ["customName"] |}.

Definition fixed_name : Capabilities :=
  {| can_send := ["singlePress"]; can_receive := [] |}.

Definition some_controller (capabilities : Capabilities) : ControllerX.t :=
  {| Device.id := "c1";
     Device.capabilities := capabilities;
     Device.attributes :=
       {| ControllerAttributesX.custom_name := "Remote";
          ControllerAttributesX.is_on := None;
          ControllerAttributesX.battery_percentage := Some 80;
          ControllerAttributesX.switch_label := None |} |}.

Definition some_motion_sensor (capabilities : Capabilities) : MotionSensorX.t :=
  {| Device.id := "m1";
     Device.capabilities := capabilities;
     Device.attributes :=
       {| MotionSensorAttributesX.custom_name := "Hall";
          MotionSensorAttributesX.battery_percentage := Some 55;
          MotionSensorAttributesX.is_on := None;
          MotionSensorAttributesX.light_level := None;
          MotionSensorAttributesX.is_detected := Some false |} |}.

Definition some_environment_sensor (capabilities : Capabilities) : EnvironmentSensorX.t :=
  {| Device.id := "e1";
     Device.capabilities := capabilities;
     Device.attributes :=
       {| EnvironmentSensorAttributesX.custom_name := "Air";
          EnvironmentSensorAttributesX.current_temperature := None;
          EnvironmentSensorAttributesX.current_r_h := Some 40;
          EnvironmentSensorAttributesX.current_p_m25 := Some 3;
          EnvironmentSensorAttributesX.max_measured_p_m25 := None;
          EnvironmentSensorAttributesX.min_measured_p_m25 := None;
          EnvironmentSensorAttributesX.voc_index := None;
          EnvironmentSensorAttributesX.battery_percentage := None;
          EnvironmentSensorAttributesX.current_c_o2 := Some 600 |} |}.

(** A hub whose devices are all of one device type, and model classes that
    accept every record. *)
Definition typed_hub (device_type : string) : Hub :=
  fun _ _ => Returns (VDict [("id", VStr "d1"); ("deviceType", VStr device_type)]).

Definition any_motion_sensor : Model MotionSensorX.t :=
  {| model_validate := fun _ => Some (some_motion_sensor renamable) |}.

Definition any_environment_sensor : Model EnvironmentSensorX.t :=
  {| model_validate := fun _ => Some (some_environment_sensor renamable) |}.

(** A device is of the type [t], as the getters compare it. *)
Definition motion_type (t : value) : bool :=
  Py.eq_str t "motionSensor" || Py.eq_str t "occupancySensor".

Definition environment_type (t : value) : bool :=
  Py.eq_str t "environmentSensor".

(** The object a model class gives for a hub record. *)
Definition constructed {A : Type} {model : Model A} (data : value) : result A :=
  match model_validate data with
  | Some a => Ok a
  | None => Raise (ExternalError validation_error)
  end.

(** The request [set_name] sends for a device. *)
Definition rename_request (id name : string) : Call :=
  Patch ("/devices/" ++ id)
    (VList [VDict [("attributes", VDict [("customName", VStr name)])]]).

(** A [set_name] method checks the capability before anything else:
    without ["customName"] among [can_receive] it raises [AssertionError],
    sends nothing and leaves the device as it is; with it, it does not
    raise [AssertionError]. *)
Definition checks_capability {A : Type} (set_name : string -> M (Device.t A) unit) : Prop :=
  forall (hub : Hub) (self : Device.t A) (history : list Call) (name : string),
    let o := set_name name hub self history in
    (~ In "customName"%string (can_receive (Device.capabilities self)) ->
     (exists msg, res o = Raise (AssertionError msg)) /\
     issued o = [] /\ self_after o = self) /\
    (In "customName"%string (can_receive (Device.capabilities self)) ->
     forall msg, res o <> Raise (AssertionError msg)).

(** A hub that answers the first [k] requests and fails every later one. *)
Definition hub_failing_after (k : nat) : Hub :=
  fun history _ =>
    if (length history <? k)%nat then Returns VNone else Fails "hub unavailable".

(** The loop of [create_empty_scene] with the flag [allow_multibutton] off. *)
Definition legacy_loop (controller_id : string) (clicks_supported : list string)
    : M HubX unit :=
  for_each clicks_supported (fun click =>
    _post_empty_scene controller_id click "shortcutController" 0).

(** The two trigger types of [create_empty_scene]. *)
Definition trigger_type (type : string) : Prop :=
  type = "shortcutController"%string \/ type = "lightController"%string.

(** A request creates a scene that only generates events: one trigger, on
    the given controller, and no action. *)
Definition event_generator (controller_id : string) (c : Call) : Prop :=
  exists data trigger,
    c = Post "/scenes/" data /\
    Request.field data "type" = Some (VStr "customScene") /\
    Request.field data "actions" = Some (VList []) /\
    Request.field data "triggers" = Some (VList [trigger]) /\
    Request.field trigger "type" = Some (VStr "controller") /\
    Request.field trigger "disabled" = Some (VBool false) /\
    Request.device_id c = Some controller_id.

(** What a list comprehension over a function that may raise gives: the
    images of all the elements, or the exception of the first element that
    raises. *)
Fixpoint map_by {A B : Type} (f : A -> result B) (l : list A) : result (list B) :=
  match l with
  | [] => Ok []
  | a :: l' =>
      match f a with
      | Raise e => Raise e
      | Ok b =>
          match map_by f l' with
          | Raise e => Raise e
          | Ok bs => Ok (b :: bs)
          end
      end
  end.


(** A scene record without the key ["icon"], and a hub that lists it after
    a scene that carries the marker. *)
Definition record_without_icon : value :=
  VDict [ ("id", VStr "s3"); ("info", VDict [("name", VStr "Dinner")]) ].

Definition bad_listing_hub : Hub :=
  fun _ c =>
    match c with
    | Get _ =>
        Returns
          (VList
             [ scene_record "s1"
                 "dirigera_integration_empty_scene_r_shortcutController_0_singlePress";
               record_without_icon ])
    | _ => Returns VNone
    end.









(** A device record passes the test of a list getter: it has the key and
    the value under it passes. *)
Definition record_passes (key : string) (test : value -> bool) (x : value) : bool :=
  match Py.getitem x key with
  | Ok t => test t
  | Raise _ => false
  end.

Definition controller_record : value -> bool :=
  record_passes "type" (fun t => Py.eq_str t "controller").

Definition motion_record : value -> bool :=
  record_passes "deviceType" motion_type.

Definition environment_record : value -> bool :=
  record_passes "deviceType" environment_type.

(** Every record of a listing has the key. *)
Definition all_have (key : string) (items : list value) : Prop :=
  Forall (fun x => exists t, Py.getitem x key = Ok t) items.

(** The objects a model class constructs from records, one for one. *)
Definition all_constructed {A : Type} {model : Model A}
    (records : list value) (objects : list A) : Prop :=
  Forall2 (fun data object => model_validate data = Some object) records objects.

(** A hub with a light, a motion sensor, an occupancy sensor, an
    environment sensor and a controller, and model classes that accept
    every record. *)
Definition device_record (id type device_type : string) : value :=
  VDict [("id", VStr id); ("type", VStr type); ("deviceType", VStr device_type)].

Definition home_devices : list value :=
  [ device_record "l1" "light" "light";
    device_record "m1" "sensor" "motionSensor";
    device_record "o1" "sensor" "occupancySensor";
    device_record "e1" "sensor" "environmentSensor";
    device_record "c1" "controller" "shortcutController" ].

Definition home_hub : Hub := fun _ _ => Returns (VList home_devices).

Definition any_controller : Model ControllerX.t :=
  {| model_validate := fun _ => Some (some_controller renamable) |}.

(** A hub with a motion sensor and a record without ["deviceType"]. *)
Definition untyped_record : value := VDict [("id", VStr "x1"); ("type", VStr "gateway")].

Definition untyped_hub : Hub :=
  fun _ _ => Returns (VList [device_record "m1" "sensor" "motionSensor"; untyped_record]).

(** A [set_name] method on a device that can receive ["customName"]: it
    sends the one rename request, and the device carries the new name
    afterwards exactly when the hub answered the request; when the hub
    failed it the device is as it was. *)
Definition renames_consistently {A : Type} (set_custom_name : string -> A -> A)
    (set_name : string -> M (Device.t A) unit) : Prop :=
  forall (hub : Hub) (self : Device.t A) (history : list Call) (name : string),
    In "customName"%string (can_receive (Device.capabilities self)) ->
    let o := set_name name hub self history in
    let request := rename_request (Device.id self) name in
    issued o = [request] /\
    (forall v, hub history request = Returns v ->
       res o = Ok tt /\
       self_after o
       = Device.with_attributes (set_custom_name name (Device.attributes self)) self) /\
    (forall msg, hub history request = Fails msg ->
       res o = Raise (ExternalError msg) /\ self_after o = self).

(** Two renames in a row against a hub that answers both: two requests in
    order, and the device is as after the second rename alone. *)
Definition last_rename_wins {A : Type} (set_name : string -> M (Device.t A) unit) : Prop :=
  forall (hub : Hub) (self : Device.t A) (history : list Call) (first second : string),
    In "customName"%string (can_receive (Device.capabilities self)) ->
    (forall h c, exists v, hub h c = Returns v) ->
    let o := (set_name first ;; set_name second) hub self history in
    res o = Ok tt /\
    issued o = [ rename_request (Device.id self) first;
                 rename_request (Device.id self) second ] /\
    self_after o = self_after (set_name second hub self history).

(** A [reload] method of a device: one request for the device's own
    record, the object itself untouched, and as result the object the model
    class constructs from the record, if the record is a dict. *)
Definition reloads_from_hub {A : Type} {model : Model (Device.t A)}
    (reload : M (Device.t A) (Device.t A)) : Prop :=
  forall (hub : Hub) (self : Device.t A) (history : list Call),
    let o := reload hub self history in
    let request := Get ("/devices/" ++ Device.id self) in
    issued o = [request] /\ self_after o = self /\
    res o
    = match hub history request with
      | Fails msg => Raise (ExternalError msg)
      | Returns (VDict fields) => constructed (VDict fields)
      | Returns _ => Raise (TypeError "argument after ** must be a mapping")
      end.

(** The exception is a [ValueError]: one raised by this module or by a
    builtin, or one of the library's whose class is [ValueError] or a
    subclass of it. *)
Definition is_value_error (e : exn) : bool :=
  match e with
  | ValueError _ => true
  | ExternalError msg => value_error msg
  | _ => false
  end.

(** A method ends with a [ValueError]. *)
Definition raises_value_error {X A : Type} (o : outcome X A) : Prop :=
  exists e, res o = Raise e /\ is_value_error e = true.

(** The [ValueError] with which the client library answers a device id
    the hub does not know, and a hub that knows no device. *)
Definition device_not_found : fault :=
  {| value_error := true; text := "Device id not found" |}.

Definition empty_hub : Hub := fun _ _ => Fails device_not_found.

(** The string of [n] times the digit 1. *)
Fixpoint ones (n : nat) : string :=
  match n with
  | O => EmptyString
  | S n' => String "1" (ones n')
  end.

(* ================================================================== *)
(** * Properties *)

(** ** Laws of the monad *)

Section Laws.

Context {X : Type}.

Lemma same_refl {A : Type} (m : M X A) : m ~~ m.
Proof. intros hub self history; reflexivity. Qed.

Lemma same_sym {A : Type} (m1 m2 : M X A) : m1 ~~ m2 -> m2 ~~ m1.
Proof. intros H hub self history; symmetry; apply H. Qed.

Lemma same_trans {A : Type} (m1 m2 m3 : M X A) :
  m1 ~~ m2 -> m2 ~~ m3 -> m1 ~~ m3.
Proof. intros H12 H23 hub self history; rewrite H12; apply H23. Qed.

Lemma bind_cong {A B : Type} (m m' : M X A) (f f' : A -> M X B) :
  m ~~ m' -> (forall a, f a ~~ f' a) -> bind m f ~~ bind m' f'.
Proof.
  intros Hm Hf hub self history; unfold bind.
  rewrite Hm. destruct (res (m' hub self history)); [ | reflexivity ].
  rewrite Hf; reflexivity.
Qed.

Lemma bind_ret_l {A B : Type} (a : A) (f : A -> M X B) : bind (ret a) f ~~ f a.
Proof.
  intros hub self history; unfold bind, ret; simpl.
  rewrite app_nil_r. destruct (f a hub self history); reflexivity.
Qed.

Lemma bind_ret_r (m : M X unit) : (m ;; ret tt) ~~ m.
Proof.
  intros hub self history; unfold bind, ret.
  destruct (m hub self history) as [[[] | e] self' cs]; simpl;
    rewrite ?app_nil_r; reflexivity.
Qed.

Lemma bind_assoc {A B C : Type} (m : M X A) (f : A -> M X B) (g : B -> M X C) :
  bind (bind m f) g ~~ bind m (fun a => bind (f a) g).
Proof.
  intros hub self history; unfold bind.
  destruct (m hub self history) as [[a | e] self1 cs1]; simpl; [ | reflexivity ].
  destruct (f a hub self1 (history ++ cs1)) as [[b | e] self2 cs2]; simpl;
    [ | reflexivity ].
  rewrite <- !app_assoc; reflexivity.
Qed.

(** One step of a run. *)
Lemma bind_ok {A B : Type} (m : M X A) (f : A -> M X B)
    (hub : Hub) (self self' : X) (history cs : list Call) (a : A) :
  m hub self history = Outcome (Ok a) self' cs ->
  bind m f hub self history
  = Outcome (res (f a hub self' (history ++ cs)))
      (self_after (f a hub self' (history ++ cs)))
      (cs ++ issued (f a hub self' (history ++ cs))).
Proof. intros H; unfold bind; rewrite H; reflexivity. Qed.

Lemma bind_raise {A B : Type} (m : M X A) (f : A -> M X B)
    (hub : Hub) (self self' : X) (history cs : list Call) (e : exn) :
  m hub self history = Outcome (Raise e) self' cs ->
  bind m f hub self history = Outcome (Raise e) self' cs.
Proof. intros H; unfold bind; rewrite H; reflexivity. Qed.

Lemma call_returns (hub : Hub) (self : X) (history : list Call) (c : Call) (v : value) :
  hub history c = Returns v ->
  call c hub self history = Outcome (Ok v) self [c].
Proof. intros H; unfold call; rewrite H; reflexivity. Qed.

Lemma call_fails (hub : Hub) (self : X) (history : list Call) (c : Call) (msg : fault) :
  hub history c = Fails msg ->
  call c hub self history = Outcome (Raise (ExternalError msg)) self [c].
Proof. intros H; unfold call; rewrite H; reflexivity. Qed.

Lemma send_all_app (cs1 cs2 : list Call) :
  send_all (X := X) (cs1 ++ cs2) ~~ (send_all cs1 ;; send_all cs2).
Proof.
  induction cs1 as [ | c cs1 IH ]; simpl.
  - apply same_sym, (bind_ret_l tt (fun _ => send_all cs2)).
  - eapply same_trans; [ | apply same_sym, bind_assoc ].
    apply bind_cong; [ apply same_refl | intros _; exact IH ].
Qed.

Lemma for_each_send_all {A : Type} (calls : A -> list Call) (body : A -> M X unit)
    (l : list A) :
  (forall a, body a ~~ send_all (calls a)) ->
  for_each l body ~~ send_all (flat_map calls l).
Proof.
  intros Hbody; induction l as [ | a l IH ]; simpl.
  - apply same_refl.
  - eapply same_trans; [ | apply same_sym, send_all_app ].
    apply bind_cong; [ apply Hbody | intros _; exact IH ].
Qed.

(** A hub that answers the calls of the list lets all of them through. *)
Lemma send_all_answered (hub : Hub) (cs : list Call) :
  (forall c history, In c cs -> exists v, hub history c = Returns v) ->
  forall (self : X) history, send_all cs hub self history = Outcome (Ok tt) self cs.
Proof.
  induction cs as [ | c cs IH ]; intros Hans self history; [ reflexivity | ].
  simpl. unfold bind, call.
  destruct (Hans c history (or_introl eq_refl)) as [v ->]; simpl.
  rewrite IH; [ reflexivity | ].
  intros c' h' Hin; apply Hans; right; exact Hin.
Qed.

(** Whatever the hub answers, the calls issued are the first calls of the
    list, the object is as it was, and the only failure is the hub's. *)
Lemma send_all_any (hub : Hub) (cs : list Call) (self : X) (history : list Call) :
  let o := send_all cs hub self history in
  self_after o = self /\
  (exists k, issued o = firstn k cs) /\
  (res o = Ok tt -> issued o = cs) /\
  (forall e, res o = Raise e -> exists msg, e = ExternalError msg).
Proof.
  revert history; induction cs as [ | c cs IH ]; intros history; simpl.
  - repeat split; [ exists 0%nat; reflexivity | discriminate ].
  - unfold bind, call. destruct (hub history c) as [v | msg]; simpl.
    + destruct (IH (history ++ [c])) as (Hself & [k Hk] & Hok & Hexn).
      repeat split.
      * exact Hself.
      * exists (S k); simpl; rewrite Hk; reflexivity.
      * intros H; rewrite (Hok H); reflexivity.
      * exact Hexn.
    + repeat split.
      * exists 1%nat; destruct cs; reflexivity.
      * discriminate.
      * intros e [= <-]; exists msg; reflexivity.
Qed.

End Laws.

(** ** The requests of [create_empty_scene] *)

Lemma flat_map_singleton {A B : Type} (f : A -> B) (l : list A) :
  flat_map (fun a => [f a]) l = map f l.
Proof. induction l as [ | a l IH ]; simpl; [ | rewrite IH ]; reflexivity. Qed.

Lemma Forall_firstn_of {A : Type} (P : A -> Prop) (k : nat) (l : list A) :
  Forall P l -> Forall P (firstn k l).
Proof.
  intros H; revert k; induction H as [ | a l Ha Hl IH ]; intros [ | k ]; simpl;
    constructor; auto.
Qed.

Lemma post_empty_scene_request (controller_id click type : string) (index : Z) :
  _post_empty_scene controller_id click type index
  ~~ send_all [scene_request controller_id click type index].
Proof. apply same_refl. Qed.

(** With a button count that fits the limit on digits, the method issues
    the requests of [scene_requests], in that order, and does nothing
    else. *)
Lemma create_empty_scene_requests (controller_id : string) (clicks : list string)
    (buttons : value) :
  Str.fits (coerce_buttons buttons) = true ->
  create_empty_scene controller_id clicks buttons
  ~~ send_all (scene_requests controller_id clicks buttons).
Proof.
  intros Hfits. unfold create_empty_scene, debug_line, Str.format_int, scene_requests.
  rewrite Hfits; cbn [lift].
  eapply same_trans; [ apply bind_ret_l | ].
  apply for_each_send_all; intros click.
  change (send_all (?c :: ?cs)) with (send_all (X := HubX) ([c] ++ cs)).
  eapply same_trans; [ | apply same_sym, send_all_app ].
  apply bind_cong; [ apply post_empty_scene_request | intros _ ].
  destruct (allow_multibutton controller_id (coerce_buttons buttons)).
  - rewrite <- flat_map_singleton.
    apply for_each_send_all; intros index; apply post_empty_scene_request.
  - apply same_refl.
Qed.

(** With a button count of more digits than the limit, the method raises
    at its first debug line and issues nothing. *)
Lemma create_empty_scene_too_many_digits (controller_id : string)
    (clicks : list string) (buttons : value) :
  Str.fits (coerce_buttons buttons) = false ->
  create_empty_scene controller_id clicks buttons ~~ raise Str.limit_error.
Proof.
  intros Hfits. unfold create_empty_scene, debug_line, Str.format_int.
  rewrite Hfits; cbn [lift]. intros hub self history; reflexivity.
Qed.

(** In both cases the hub object is as it was and the requests issued are
    the first requests of [scene_requests]. *)
Lemma create_empty_scene_issued (hub : Hub) (self : HubX) (history : list Call)
    (controller_id : string) (clicks : list string) (buttons : value) :
  let o := create_empty_scene controller_id clicks buttons hub self history in
  self_after o = self /\
  exists k, issued o = firstn k (scene_requests controller_id clicks buttons).
Proof.
  intros o; subst o.
  destruct (Str.fits (coerce_buttons buttons)) eqn:Hfits.
  - rewrite (create_empty_scene_requests _ _ _ Hfits).
    destruct (send_all_any hub (scene_requests controller_id clicks buttons) self history)
      as (Hself & Hk & _).
    split; [ exact Hself | exact Hk ].
  - rewrite (create_empty_scene_too_many_digits _ _ _ Hfits).
    split; [ reflexivity | exists 0%nat; reflexivity ].
Qed.

Lemma scene_requests_posts (controller_id : string) (clicks : list string)
    (buttons : value) :
  Forall (fun c => exists data, c = Post "/scenes/" data)
    (scene_requests controller_id clicks buttons).
Proof.
  unfold scene_requests; apply Forall_forall; intros c Hin.
  apply in_flat_map in Hin; destruct Hin as (click & _ & [<- | Hin]).
  - eexists; reflexivity.
  - destruct (allow_multibutton _ _); [ | contradiction ].
    apply in_map_iff in Hin; destruct Hin as (index & <- & _).
    eexists; reflexivity.
Qed.

(** Against a hub that answers scene creations the method returns, with
    all its requests issued. *)
Lemma create_empty_scene_accepted (hub : Hub) (self : HubX) (history : list Call)
    (controller_id : string) (clicks : list string) (buttons : value) :
  Str.fits (coerce_buttons buttons) = true ->
  accepts_posts hub ->
  create_empty_scene controller_id clicks buttons hub self history
  = Outcome (Ok tt) self (scene_requests controller_id clicks buttons).
Proof.
  intros Hfits Hacc. rewrite (create_empty_scene_requests _ _ _ Hfits).
  apply send_all_answered; intros c h Hin.
  pose proof (scene_requests_posts controller_id clicks buttons) as Hposts.
  rewrite Forall_forall in Hposts. destruct (Hposts c Hin) as [data ->].
  apply Hacc.
Qed.


Lemma scene_request_marked (controller_id click type : string) (index : Z) :
  Request.marked (scene_request controller_id click type index) = true.
Proof. reflexivity. Qed.

Lemma scene_request_well_named (controller_id click type : string) (index : Z) :
  Request.well_named (scene_request controller_id click type index).
Proof. exists controller_id, click, type, index; repeat split. Qed.

Lemma scene_requests_all (P : Call -> Prop) (controller_id : string)
    (clicks : list string) (buttons : value) :
  (forall click type index, P (scene_request controller_id click type index)) ->
  Forall P (scene_requests controller_id clicks buttons).
Proof.
  intros HP; unfold scene_requests; apply Forall_forall; intros c Hin.
  apply in_flat_map in Hin; destruct Hin as (click & _ & [<- | Hin]).
  - apply HP.
  - destruct (allow_multibutton _ _); [ | contradiction ].
    apply in_map_iff in Hin; destruct Hin as (index & <- & _). apply HP.
Qed.

Lemma filter_legacy_buttons (controller_id click : string) (indices : list Z) :
  filter Request.is_legacy (map (button_request controller_id click) indices) = [].
Proof. induction indices as [ | i l IH ]; simpl; [ reflexivity | exact IH ]. Qed.

Lemma filter_multibutton_buttons (controller_id click : string) (indices : list Z) :
  filter Request.is_multibutton (map (button_request controller_id click) indices)
  = map (button_request controller_id click) indices.
Proof. induction indices as [ | i l IH ]; simpl; [ | rewrite IH ]; reflexivity. Qed.

(** The legacy requests of a run: one for each click pattern. *)
Lemma scene_requests_legacy (controller_id : string) (clicks : list string)
    (buttons : value) :
  filter Request.is_legacy (scene_requests controller_id clicks buttons)
  = map (legacy_request controller_id) clicks.
Proof.
  unfold scene_requests.
  induction clicks as [ | click clicks IH ]; [ reflexivity | ].
  cbn [flat_map map]. rewrite filter_app, IH.
  cbn [filter app]. change (Request.is_legacy (legacy_request controller_id click)) with true.
  cbv iota. destruct (allow_multibutton _ _).
  - rewrite filter_legacy_buttons; reflexivity.
  - reflexivity.
Qed.

(** With the flag off the legacy requests are all there is. *)
Lemma scene_requests_not_allowed (controller_id : string) (clicks : list string)
    (buttons : value) :
  allow_multibutton controller_id (coerce_buttons buttons) = false ->
  scene_requests controller_id clicks buttons = map (legacy_request controller_id) clicks.
Proof.
  intros Hno; unfold scene_requests; rewrite Hno.
  apply (flat_map_singleton (legacy_request controller_id)).
Qed.

(** The multi-button requests of a run. *)
Lemma scene_requests_multibutton (controller_id : string) (clicks : list string)
    (buttons : value) :
  filter Request.is_multibutton (scene_requests controller_id clicks buttons)
  = if allow_multibutton controller_id (coerce_buttons buttons)
    then flat_map
           (fun click =>
              map (button_request controller_id click)
                (Py.range 1 (coerce_buttons buttons + 1)))
           clicks
    else [].
Proof.
  unfold scene_requests.
  induction clicks as [ | click clicks IH ].
  - destruct (allow_multibutton _ _); reflexivity.
  - cbn [flat_map map]. rewrite filter_app, IH. cbn [filter app].
    change (Request.is_multibutton (legacy_request controller_id click)) with false.
    cbv iota. destruct (allow_multibutton _ _).
    + rewrite filter_multibutton_buttons; reflexivity.
    + reflexivity.
Qed.

(** ** Strings *)

Section Strings.

Local Open Scope string_scope.

Lemma append_empty_r (s : string) : s ++ "" = s.
Proof. induction s as [ | c s IH ]; simpl; [ | rewrite IH ]; reflexivity. Qed.

Lemma append_assoc (s1 s2 s3 : string) : (s1 ++ s2) ++ s3 = s1 ++ (s2 ++ s3).
Proof. induction s1 as [ | c s1 IH ]; simpl; [ | rewrite IH ]; reflexivity. Qed.

Lemma all_append (p : ascii -> bool) (s1 s2 : string) :
  Str.all p (s1 ++ s2) = Str.all p s1 && Str.all p s2.
Proof.
  induction s1 as [ | c s1 IH ]; simpl; [ reflexivity | ].
  rewrite IH, andb_assoc; reflexivity.
Qed.

Lemma contains_append (c : ascii) (s1 s2 : string) :
  Str.contains c (s1 ++ s2) = Str.contains c s1 || Str.contains c s2.
Proof.
  induction s1 as [ | a s1 IH ]; simpl; [ reflexivity | ].
  rewrite IH, orb_assoc; reflexivity.
Qed.

(** A string without [c] is a string of characters other than [c]. *)
Lemma contains_all (c : ascii) (s : string) :
  Str.contains c s = negb (Str.all (fun a => negb (Ascii.eqb a c)) s).
Proof.
  induction s as [ | a s IH ]; simpl; [ reflexivity | ].
  rewrite IH. destruct (Ascii.eqb a c); reflexivity.
Qed.

Lemma digit_not_underscore (c : ascii) :
  Str.is_digit c = true -> Ascii.eqb c Str.underscore = false.
Proof.
  intros Hd. destruct (Ascii.eqb_spec c Str.underscore) as [-> | ];
    [ discriminate Hd | reflexivity ].
Qed.

Lemma digit_not_newline (c : ascii) :
  Str.is_digit c = true -> Ascii.eqb c Str.newline = false.
Proof.
  intros Hd. destruct (Ascii.eqb_spec c Str.newline) as [-> | ];
    [ discriminate Hd | reflexivity ].
Qed.

Lemma digits_no_underscore (d : string) :
  Str.all Str.is_digit d = true -> Str.contains Str.underscore d = false.
Proof.
  induction d as [ | c d IH ]; simpl; [ reflexivity | ].
  intros H; apply andb_prop in H; destruct H as [Hc Hd].
  rewrite (digit_not_underscore c Hc), (IH Hd); reflexivity.
Qed.

Lemma digits_no_newline (d : string) :
  Str.all Str.is_digit d = true -> Str.contains Str.newline d = false.
Proof.
  induction d as [ | c d IH ]; simpl; [ reflexivity | ].
  intros H; apply andb_prop in H; destruct H as [Hc Hd].
  rewrite (digit_not_newline c Hc), (IH Hd); reflexivity.
Qed.

(** The text after the last occurrence of a character is determined. *)
Lemma split_last_unique (c : ascii) (a a' u u' : string) :
  Str.contains c u = false -> Str.contains c u' = false ->
  a ++ String c u = a' ++ String c u' -> a = a' /\ u = u'.
Proof.
  intros Hu Hu'; revert a'; induction a as [ | x a IH ]; intros [ | x' a' ]; simpl.
  - intros [= ->]; split; reflexivity.
  - intros [= <- ->]. rewrite contains_append in Hu; simpl in Hu.
    rewrite Ascii.eqb_refl, orb_true_r in Hu; discriminate.
  - intros [= -> <-]. rewrite contains_append in Hu'; simpl in Hu'.
    rewrite Ascii.eqb_refl, orb_true_r in Hu'; discriminate.
  - intros [= -> H]. destruct (IH _ H) as [-> ->]; split; reflexivity.
Qed.

End Strings.

(** ** The pattern *)

Section Pattern.

Local Open Scope string_scope.

Context {A : Type} (cls : ascii -> bool) (k : string -> string -> option A).

(** A success of the star is a success of the continuation after some
    run of the class. *)
Lemma star_sound (rest : string) :
  forall taken r,
    Re.star cls k taken rest = Some r ->
    exists run rest',
      rest = run ++ rest' /\ Str.all cls run = true /\ k (taken ++ run) rest' = Some r.
Proof.
  induction rest as [ | c rest IH ]; intros taken r; simpl.
  - intros H; exists "", "".
    split; [ reflexivity | split; [ reflexivity | rewrite append_empty_r; exact H ] ].
  - destruct (cls c) eqn:Hc.
    + destruct (Re.star cls k (taken ++ String c "") rest) as [m | ] eqn:Hstar.
      * intros [= <-]. destruct (IH _ _ Hstar) as (run & rest' & -> & Hall & Hk).
        exists (String c run), rest'; simpl; rewrite Hc, Hall.
        rewrite append_assoc in Hk; auto.
      * intros H; exists "", (String c rest).
        split; [ reflexivity | split; [ reflexivity | rewrite append_empty_r; exact H ] ].
    + intros H; exists "", (String c rest).
      split; [ reflexivity | split; [ reflexivity | rewrite append_empty_r; exact H ] ].
Qed.

(** If the continuation succeeds after some run of the class, the star
    succeeds. *)
Lemma star_complete (run : string) :
  forall taken rest' r,
    Str.all cls run = true -> k (taken ++ run) rest' = Some r ->
    exists r', Re.star cls k taken (run ++ rest') = Some r'.
Proof.
  induction run as [ | c run IH ]; intros taken rest' r; simpl.
  - intros _; rewrite append_empty_r; intros Hk.
    destruct rest' as [ | c rest' ]; simpl; [ eauto | ].
    destruct (cls c); [ | eauto ].
    destruct (Re.star cls k (taken ++ String c "") rest'); eauto.
  - intros H Hk; apply andb_prop in H; destruct H as [Hc Hall]; rewrite Hc.
    destruct (IH (taken ++ String c "") rest' r Hall) as [r' ->]; [ | eauto ].
    rewrite append_assoc; exact Hk.
Qed.

End Pattern.

Section Search.

Local Open Scope string_scope.

Lemma search_from_later (rest : string) (pos : nat) :
  Re.search_from (S pos) rest = None.
Proof.
  revert pos; induction rest as [ | c rest IH ]; intros pos; simpl;
    [ reflexivity | apply IH ].
Qed.

(** The start anchor leaves offset 0 only. *)
Lemma search_match_at (subject : string) :
  Re.search subject = Re.match_at 0 subject.
Proof.
  unfold Re.search. destruct subject as [ | c rest ]; cbn [Re.search_from].
  - destruct (Re.match_at 0 ""); reflexivity.
  - destruct (Re.match_at 0 (String c rest)); [ reflexivity | ].
    apply search_from_later.
Qed.

Lemma at_dollar_cases (tail : string) :
  Re.at_dollar tail = true -> tail = "" \/ tail = String Str.newline "".
Proof.
  destruct tail as [ | c [ | c' tail ] ]; simpl; try discriminate; auto.
  intros H; apply Ascii.eqb_eq in H; subst; auto.
Qed.

Lemma tail_no_underscore (d tail : string) :
  Str.all Str.is_digit d = true -> Re.at_dollar tail = true ->
  Str.contains Str.underscore (d ++ tail) = false.
Proof.
  intros Hd Ht. rewrite contains_append, (digits_no_underscore d Hd).
  destruct (at_dollar_cases tail Ht) as [-> | ->]; reflexivity.
Qed.

(** Digits followed by the end of the subject split in one way only. *)
Lemma digits_tail_unique (d : string) :
  forall d' tail tail',
    Str.all Str.is_digit d = true -> Str.all Str.is_digit d' = true ->
    Re.at_dollar tail = true -> Re.at_dollar tail' = true ->
    d ++ tail = d' ++ tail' -> d = d' /\ tail = tail'.
Proof.
  induction d as [ | c d IH ]; intros [ | c' d' ] tail tail' Hd Hd' Ht Ht'; simpl.
  - auto.
  - intros ->. simpl in Hd'; apply andb_prop in Hd'; destruct Hd' as [Hc _].
    apply digit_not_newline in Hc.
    destruct (d' ++ tail') as [ | x rest ]; simpl in Ht; [ | discriminate ].
    rewrite Hc in Ht; discriminate.
  - intros <-. simpl in Hd; apply andb_prop in Hd; destruct Hd as [Hc _].
    apply digit_not_newline in Hc.
    destruct (d ++ tail) as [ | x rest ]; simpl in Ht'; [ | discriminate ].
    rewrite Hc in Ht'; discriminate.
  - intros [= -> H]. simpl in Hd, Hd'.
    apply andb_prop in Hd; apply andb_prop in Hd'.
    destruct (IH d' tail tail') as [-> ->]; tauto.
Qed.

Lemma match_at_sound (subject : string) (m : Re.Match) :
  Re.match_at 0 subject = Some m -> matches subject m.
Proof.
  unfold Re.match_at; simpl. intros H.
  apply star_sound in H; destruct H as (g1 & rest & -> & Hg1 & H).
  simpl in H. unfold Re.lit in H.
  destruct rest as [ | u rest ]; [ discriminate | ].
  destruct (Ascii.eqb_spec u Str.underscore) as [-> | ]; [ | discriminate ].
  unfold Re.plus in H. destruct rest as [ | c rest ]; [ discriminate | ].
  destruct (Str.is_digit c) eqn:Hc; [ | discriminate ].
  apply star_sound in H; destruct H as (d & tail & -> & Hd & H).
  destruct (Re.at_dollar tail) eqn:Htail; [ | discriminate ].
  injection H as <-. exists tail; simpl.
  rewrite Hc, Hd. repeat split; auto; discriminate.
Qed.

Lemma match_at_complete (subject : string) (m : Re.Match) :
  matches subject m -> exists m', Re.match_at 0 subject = Some m'.
Proof.
  intros (tail & Htail & -> & Hg1 & Hne & Hg2).
  unfold Re.match_at; simpl.
  destruct (Re.group2 m) as [ | c d ] eqn:Eg2; [ contradiction | ].
  simpl in Hg2; apply andb_prop in Hg2; destruct Hg2 as [Hc Hd].
  assert (Hplus : exists r,
    Re.plus Str.is_digit
      (fun g2 rest2 =>
         if Re.at_dollar rest2
         then Some {| Re.group1 := Re.group1 m; Re.group2 := g2 |}
         else None)
      (String c d ++ tail) = Some r).
  { simpl; rewrite Hc.
    eapply star_complete; [ exact Hd | ]. rewrite Htail; reflexivity. }
  destruct Hplus as [r Hplus].
  eapply star_complete; [ exact Hg1 | ].
  exact Hplus.
Qed.

Lemma matches_unique (subject : string) (m m' : Re.Match) :
  matches subject m -> matches subject m' -> m = m'.
Proof.
  intros (t & Ht & -> & _ & _ & Hd) (t' & Ht' & E & _ & _ & Hd').
  apply split_last_unique in E;
    [ | apply tail_no_underscore; assumption | apply tail_no_underscore; assumption ].
  destruct E as [E1 E2].
  apply digits_tail_unique in E2; try assumption.
  destruct E2 as [E2 _]. destruct m, m'; simpl in *; congruence.
Qed.

(** [re.search] finds a match exactly when there is one, and then it is
    the only one. *)
Theorem search_spec (subject : string) (m : Re.Match) :
  Re.search subject = Some m <-> matches subject m.
Proof.
  rewrite search_match_at; split.
  - apply match_at_sound.
  - intros Hm. destruct (match_at_complete subject m Hm) as [m' Hm'].
    rewrite Hm'. f_equal. symmetry.
    apply (matches_unique subject); [ exact Hm | apply match_at_sound; exact Hm' ].
Qed.

Corollary search_none (subject : string) :
  Re.search subject = None <-> forall m, ~ matches subject m.
Proof.
  split.
  - intros Hnone m Hm. apply search_spec in Hm; congruence.
  - intros Hno. destruct (Re.search subject) as [m | ] eqn:E; [ | reflexivity ].
    apply search_spec in E; destruct (Hno m E).
Qed.

End Search.

Example search_examples :
  Re.search "remote_12" = Some {| Re.group1 := "remote"; Re.group2 := "12" |} /\
  Re.search "a_1_22" = Some {| Re.group1 := "a_1"; Re.group2 := "22" |} /\
  Re.search "_1" = Some {| Re.group1 := ""; Re.group2 := "1" |} /\
  Re.search "remote_" = None /\
  Re.search "remote_1a" = None /\
  Re.search id_newline_last = Some {| Re.group1 := "abc"; Re.group2 := "2" |} /\
  Re.search id_newline_inside = None.
Proof. repeat split. Qed.

Example int_examples :
  Int.int (VStr " +1_0 ") = Ok 10 /\
  Int.int (VStr "007") = Ok 7 /\
  Int.int (VStr "-12") = Ok (-12) /\
  Int.int (VBool true) = Ok 1 /\
  coerce_buttons (VStr "1__0") = 1 /\
  coerce_buttons (VStr "") = 1 /\
  coerce_buttons (VList []) = 1 /\
  coerce_buttons VNone = 1 /\
  coerce_buttons (VStr "4") = 4.
Proof. repeat split. Qed.

(** ** The flag [allow_multibutton] *)

Section Flag.

Local Open Scope string_scope.

(** What the code decides, for every controller id. *)
Theorem allow_multibutton_spec (controller_id : string) (n : Z) :
  allow_multibutton controller_id n = true <->
  n > 1 /\ (forall m, matches controller_id m -> Re.group2 m = "1").
Proof.
  unfold allow_multibutton.
  destruct (Re.search controller_id) as [m | ] eqn:E.
  - apply search_spec in E.
    destruct (String.eqb_spec (Re.group2 m) "1") as [H1 | H1]; simpl.
    + rewrite Z.gtb_gt. split; [ intros Hn; split; [ exact Hn | ] | tauto ].
      intros m' Hm'. rewrite <- (matches_unique _ _ _ E Hm'); exact H1.
    + split; [ discriminate | ]. intros [_ H]; elim H1; apply H; exact E.
  - rewrite Z.gtb_gt. split; [ intros Hn; split; [ exact Hn | ] | tauto ].
    intros m Hm. apply search_spec in Hm; congruence.
Qed.

Lemma last_append (p d : string) :
  d <> "" -> Str.last (p ++ d) = Str.last d.
Proof.
  intros Hd; induction p as [ | c p IH ]; simpl; [ reflexivity | ].
  rewrite IH. destruct (p ++ d) eqn:E; [ | reflexivity ].
  destruct p; simpl in E; [ contradiction | discriminate ].
Qed.

Lemma last_digits (d : string) :
  d <> "" -> Str.all Str.is_digit d = true ->
  exists c, Str.last d = Some c /\ Str.is_digit c = true.
Proof.
  induction d as [ | c d IH ]; [ contradiction | ].
  intros _ H; simpl in H; apply andb_prop in H; destruct H as [Hc Hd].
  destruct d as [ | c' d ]; [ exists c; auto | ].
  destruct IH as (x & Hx & Hdx); [ discriminate | exact Hd | ].
  exists x; split; [ exact Hx | exact Hdx ].
Qed.

(** An id with a numeric suffix ends in a digit. *)
Lemma numeric_last (s : string) :
  Suffix.numeric s -> exists c, Str.last s = Some c /\ Str.is_digit c = true.
Proof.
  intros (p & d & -> & Hne & Hd).
  change (p ++ "_" ++ d) with (p ++ String "_" d).
  rewrite last_append; [ | discriminate ].
  destruct (last_digits d Hne Hd) as (c & Hc & Hdc).
  exists c; split; [ | exact Hdc ].
  destruct d; [ contradiction | exact Hc ].
Qed.

Lemma ends_with_last (s t : string) :
  t <> "" -> Suffix.ends_with s t -> Str.last s = Str.last t.
Proof. intros Ht [p ->]; apply last_append; exact Ht. Qed.

Variable controller_id : string.
Hypothesis plain : Str.contains Str.newline controller_id = false.

(** On an id without a newline a match is a numeric suffix. *)
Lemma matches_plain (m : Re.Match) :
  matches controller_id m <->
  controller_id = Re.group1 m ++ "_" ++ Re.group2 m /\
  Re.group2 m <> "" /\ Str.all Str.is_digit (Re.group2 m) = true.
Proof.
  split.
  - intros (tail & Htail & E & _ & Hne & Hd).
    destruct (at_dollar_cases tail Htail) as [-> | ->].
    + rewrite append_empty_r in E; auto.
    + rewrite E in plain. rewrite contains_append in plain; simpl in plain.
      rewrite contains_append in plain; simpl in plain.
      rewrite !orb_true_r in plain; discriminate.
  - intros (E & Hne & Hd). exists ""; rewrite append_empty_r.
    repeat split; auto.
    rewrite E, contains_append in plain. apply orb_false_elim in plain.
    destruct plain as [Hg1 _]. rewrite contains_all in Hg1.
    apply negb_false_iff in Hg1; exact Hg1.
Qed.

Lemma numeric_plain :
  Suffix.numeric controller_id <-> exists m, matches controller_id m.
Proof.
  split.
  - intros (p & d & E & Hne & Hd).
    exists {| Re.group1 := p; Re.group2 := d |}; apply matches_plain; auto.
  - intros [m Hm]; apply matches_plain in Hm.
    exists (Re.group1 m), (Re.group2 m); exact Hm.
Qed.

Lemma primary_plain :
  Suffix.primary controller_id <->
  (forall m, matches controller_id m -> Re.group2 m = "1").
Proof.
  split.
  - intros [Hno | [p E]] m Hm.
    + elim Hno; apply numeric_plain; exists m; exact Hm.
    + assert (H1 : matches controller_id {| Re.group1 := p; Re.group2 := "1" |})
        by (apply matches_plain; repeat split; [ exact E | discriminate ]).
      rewrite (matches_unique _ _ _ Hm H1); reflexivity.
  - intros H. destruct (Re.search controller_id) as [m | ] eqn:E.
    + apply search_spec in E. right; exists (Re.group1 m).
      rewrite <- (H m E). apply matches_plain; exact E.
    + left; intros Hnum; apply numeric_plain in Hnum; destruct Hnum as [m Hm].
      apply search_spec in Hm; congruence.
Qed.

(** On an id without a newline the flag is the docstring's: more than one
    button, and no suffix or the suffix [_1]. *)
Theorem allow_multibutton_plain (n : Z) :
  allow_multibutton controller_id n = true <-> n > 1 /\ Suffix.primary controller_id.
Proof. rewrite allow_multibutton_spec, primary_plain; reflexivity. Qed.

End Flag.

(** ** [create_empty_scene] *)

(** On an id without a newline and without a numeric suffix, three buttons
    and one click pattern give the legacy scene and the scenes of buttons
    1, 2 and 3. *)
Lemma create_empty_scene_no_suffix_plain (hub : Hub) (self : HubX)
    (history : list Call) (controller_id : string) :
  Str.contains Str.newline controller_id = false ->
  ~ Suffix.numeric controller_id ->
  accepts_posts hub ->
  create_empty_scene controller_id ["singlePress"] (VInt 3) hub self history
  = Outcome (Ok tt) self
      [ legacy_request controller_id "singlePress";
        button_request controller_id "singlePress" 1;
        button_request controller_id "singlePress" 2;
        button_request controller_id "singlePress" 3 ].
Proof.
  intros Hplain Hno Hacc.
  rewrite (create_empty_scene_accepted hub self history controller_id
             ["singlePress"]%string (VInt 3) eq_refl Hacc).
  unfold scene_requests.
  assert (Hallow : allow_multibutton controller_id (coerce_buttons (VInt 3)) = true).
  { apply allow_multibutton_plain; [ exact Hplain | ].
    split; [ reflexivity | left; exact Hno ]. }
  rewrite Hallow; reflexivity.
Qed.

Lemma range_from_1 (n : Z) : n > 1 -> Py.range 1 (n + 1) <> [].
Proof.
  intros Hn; unfold Py.range.
  replace (n + 1 - 1) with n by lia.
  destruct (Z.to_nat n) as [ | k ] eqn:E; [ lia | discriminate ].
Qed.

(** X3: On an id without a newline, with a button count that fits the
    limit on digits, against a hub that answers scene creations and with
    at least one click pattern, scenes with trigger type
    ["lightController"] are created exactly when the button count is above
    1 and the id is primary. *)
Theorem create_empty_scene_multibutton_plain (hub : Hub) (self : HubX)
    (history : list Call) (controller_id : string) (clicks : list string)
    (buttons : value) :
  Str.contains Str.newline controller_id = false ->
  Str.fits (coerce_buttons buttons) = true ->
  accepts_posts hub ->
  clicks <> [] ->
  filter Request.is_multibutton
    (issued (create_empty_scene controller_id clicks buttons hub self history)) <> []
  <-> coerce_buttons buttons > 1 /\ Suffix.primary controller_id.
Proof.
  intros Hplain Hfits Hacc Hclicks.
  rewrite (create_empty_scene_accepted _ _ _ _ _ _ Hfits Hacc); cbn [issued].
  rewrite scene_requests_multibutton.
  rewrite <- (allow_multibutton_plain controller_id Hplain).
  destruct (allow_multibutton controller_id (coerce_buttons buttons)) eqn:E.
  - split; [ reflexivity | intros _ ].
    apply (allow_multibutton_plain controller_id Hplain) in E; destruct E as [Hn _].
    destruct clicks as [ | click clicks' ]; [ contradiction | ].
    pose proof (range_from_1 _ Hn) as Hrange.
    destruct (Py.range 1 (coerce_buttons buttons + 1)); [ contradiction | discriminate ].
  - split; [ intros H; elim H; reflexivity | discriminate ].
Qed.

(** C1, as the code has it: a controller id that is ["abc_2"] followed by a
    newline does not end in a numeric suffix, and with three buttons and
    the click pattern ["singlePress"] the method issues one request, the
    legacy one, whatever the hub answers. *)
Theorem create_empty_scene_newline_last :
  ~ Suffix.numeric id_newline_last /\
  forall hub self history,
    issued (create_empty_scene id_newline_last ["singlePress"] (VInt 3) hub self history)
    = [legacy_request id_newline_last "singlePress"].
Proof.
  split.
  - intros H; apply numeric_last in H; destruct H as (c & Hc & Hd).
    injection Hc as <-; discriminate Hd.
  - intros hub self history.
    rewrite (create_empty_scene_requests id_newline_last ["singlePress"]%string
               (VInt 3) eq_refl).
    change (scene_requests id_newline_last ["singlePress"] (VInt 3))
      with [legacy_request id_newline_last "singlePress"].
    simpl; unfold bind, call. destruct (hub history _); reflexivity.
Qed.

(** C2, as the code has it: the controller id ["a"], newline, ["b_2"] ends
    in ["_2"] and is no primary id, and with three buttons the method
    creates the scenes of buttons 1, 2 and 3 next to the legacy one. *)
Theorem create_empty_scene_newline_inside :
  Suffix.ends_with id_newline_inside "_2" /\
  ~ Suffix.primary id_newline_inside /\
  create_empty_scene id_newline_inside ["singlePress"] (VInt 3) quiet_hub some_hub []
  = Outcome (Ok tt) some_hub
      [ legacy_request id_newline_inside "singlePress";
        button_request id_newline_inside "singlePress" 1;
        button_request id_newline_inside "singlePress" 2;
        button_request id_newline_inside "singlePress" 3 ].
Proof.
  split; [ | split ].
  - exists ("a" ++ String Str.newline "b")%string; reflexivity.
  - intros [Hno | H1].
    + apply Hno. exists ("a" ++ String Str.newline "b")%string, "2"%string.
      repeat split; discriminate.
    + apply ends_with_last in H1; [ discriminate H1 | discriminate ].
  - reflexivity.
Qed.

Lemma int_str_bound_value : Str.int_str_bound = 10 ^ 4300.
Proof. vm_compute; reflexivity. Qed.

Lemma int_str_bound_unfit : Str.fits Str.int_str_bound = false.
Proof.
  unfold Str.fits. rewrite Z.abs_eq; [ apply Z.ltb_irrefl | discriminate ].
Qed.

Lemma fits_le (m n : Z) : Z.abs m <= Z.abs n -> Str.fits n = true -> Str.fits m = true.
Proof. unfold Str.fits; rewrite !Z.ltb_lt; lia. Qed.

(** C3, as the code has it: with the [int] 10 to the power 4300 for
    [number_of_buttons], an [int] of 4301 digits, the method raises
    [ValueError] at its first debug line and issues no request, so no
    legacy scene is created, whatever the controller id, the click
    patterns and the hub. *)
Theorem create_empty_scene_huge_count (hub : Hub) (self : HubX) (history : list Call)
    (controller_id : string) (clicks : list string) :
  Str.int_str_bound = 10 ^ 4300 /\
  create_empty_scene controller_id clicks (VInt Str.int_str_bound) hub self history
  = Outcome (Raise Str.limit_error) self [].
Proof.
  split; [ exact int_str_bound_value | ].
  rewrite (create_empty_scene_too_many_digits controller_id clicks
             (VInt Str.int_str_bound) int_str_bound_unfit).
  reflexivity.
Qed.

(** X25: with a button count that fits the limit on digits, against a hub
    that answers scene creations, the method returns and its requests with
    trigger type ["shortcutController"] are one per click pattern, in
    order, each at button index 0; when the button count is 1 these are
    all its requests. *)
Theorem create_empty_scene_legacy (hub : Hub) (self : HubX) (history : list Call)
    (controller_id : string) (clicks : list string) (buttons : value) :
  Str.fits (coerce_buttons buttons) = true ->
  accepts_posts hub ->
  let o := create_empty_scene controller_id clicks buttons hub self history in
  res o = Ok tt /\
  filter Request.is_legacy (issued o) = map (legacy_request controller_id) clicks /\
  (forall click,
     Request.controller_type (legacy_request controller_id click)
       = Some "shortcutController"%string /\
     Request.button_index (legacy_request controller_id click) = Some 0 /\
     Request.click_pattern (legacy_request controller_id click) = Some click) /\
  (coerce_buttons buttons = 1 ->
   issued o = map (legacy_request controller_id) clicks).
Proof.
  intros Hfits Hacc o; subst o.
  rewrite (create_empty_scene_accepted _ _ _ _ _ _ Hfits Hacc).
  cbn [res issued]. split; [ reflexivity | split; [ | split ] ].
  - apply scene_requests_legacy.
  - intros click; repeat split.
  - intros H1. apply scene_requests_not_allowed. rewrite H1.
    unfold allow_multibutton. destruct (Re.search controller_id) as [m | ];
      [ destruct (negb _) | ]; reflexivity.
Qed.

Lemma create_empty_scene_legacy_witness :
  Str.fits (coerce_buttons VNone) = true /\
  accepts_posts quiet_hub /\
  let o := create_empty_scene "remote_1" ["singlePress"; "doublePress"] VNone
             quiet_hub some_hub [] in
  res o = Ok tt /\
  filter Request.is_legacy (issued o)
    = map (legacy_request "remote_1") ["singlePress"; "doublePress"]%string /\
  (forall click,
     Request.controller_type (legacy_request "remote_1" click)
       = Some "shortcutController"%string /\
     Request.button_index (legacy_request "remote_1" click) = Some 0 /\
     Request.click_pattern (legacy_request "remote_1" click) = Some click) /\
  (coerce_buttons VNone = 1 ->
   issued o = map (legacy_request "remote_1") ["singlePress"; "doublePress"]%string).
Proof.
  split; [ reflexivity | split ].
  - intros history route data; exists VNone; reflexivity.
  - apply (create_empty_scene_legacy quiet_hub some_hub [] "remote_1"
             ["singlePress"; "doublePress"]%string VNone).
    + reflexivity.
    + intros history route data; exists VNone; reflexivity.
Defined.

(** C4: the name of every scene is the fixed prefix, the controller id,
    the trigger type, the button index and the click pattern of its own
    trigger, joined by underscores; and two runs on the same arguments,
    against any two hubs that answer scene creations and after any two
    histories, create scenes with the same names in the same order. *)
Theorem create_empty_scene_names (hub1 hub2 : Hub) (self1 self2 : HubX)
    (history1 history2 : list Call)
    (controller_id : string) (clicks : list string) (buttons : value) :
  accepts_posts hub1 -> accepts_posts hub2 ->
  let o1 := create_empty_scene controller_id clicks buttons hub1 self1 history1 in
  let o2 := create_empty_scene controller_id clicks buttons hub2 self2 history2 in
  Forall Request.well_named (issued o1) /\
  map Request.name (issued o1) = map Request.name (issued o2).
Proof.
  intros H1 H2 o1 o2; subst o1 o2.
  destruct (Str.fits (coerce_buttons buttons)) eqn:Hfits.
  - rewrite (create_empty_scene_accepted _ _ _ _ _ _ Hfits H1),
            (create_empty_scene_accepted _ _ _ _ _ _ Hfits H2).
    cbn [issued]. split; [ | reflexivity ].
    apply scene_requests_all; intros click type index.
    apply scene_request_well_named.
  - rewrite !(create_empty_scene_too_many_digits _ _ _ Hfits).
    split; [ constructor | reflexivity ].
Qed.

Lemma create_empty_scene_names_witness :
  accepts_posts quiet_hub /\
  accepts_posts (fun history _ => Returns (VInt (Z.of_nat (length history)))) /\
  let o1 := create_empty_scene "remote" ["singlePress"] (VInt 2)
              quiet_hub some_hub [] in
  let o2 := create_empty_scene "remote" ["singlePress"] (VInt 2)
              (fun history _ => Returns (VInt (Z.of_nat (length history))))
              some_hub (issued o1) in
  Forall Request.well_named (issued o1) /\
  map Request.name (issued o1) = map Request.name (issued o2).
Proof.
  split; [ | split ].
  - intros history route data; exists VNone; reflexivity.
  - intros history route data; eexists; reflexivity.
  - apply (create_empty_scene_names quiet_hub
             (fun history _ => Returns (VInt (Z.of_nat (length history))))).
    + intros history route data; exists VNone; reflexivity.
    + intros history route data; eexists; reflexivity.
Defined.

(** C5: every request the method issues, whatever its arguments and
    whatever the hub answers, creates a scene whose name starts with
    ["dirigera_integration_empty_scene_"]. *)
Theorem create_empty_scene_marked (hub : Hub) (self : HubX) (history : list Call)
    (controller_id : string) (clicks : list string) (buttons : value) :
  Forall (fun c => Request.marked c = true)
    (issued (create_empty_scene controller_id clicks buttons hub self history)).
Proof.
  destruct (create_empty_scene_issued hub self history controller_id clicks buttons)
    as (_ & [k ->]).
  apply Forall_firstn_of, scene_requests_all.
  intros click type index; apply scene_request_marked.
Qed.

(** C7: when [number_of_buttons] is [None] or [int] raises on it, the
    button count is 1, the method is the loop of legacy requests, and the
    only exception it can end with is one of the hub's. *)
Theorem create_empty_scene_bad_count (controller_id : string) (clicks : list string)
    (buttons : value) :
  buttons = VNone \/ (exists e, Int.int buttons = Raise e) ->
  coerce_buttons buttons = 1 /\
  create_empty_scene controller_id clicks buttons
    ~~ for_each clicks (fun click =>
         _post_empty_scene controller_id click "shortcutController" 0) /\
  (forall hub self history,
     let o := create_empty_scene controller_id clicks buttons hub self history in
     (exists k, issued o = firstn k (map (legacy_request controller_id) clicks)) /\
     forall e, res o = Raise e -> exists msg, e = ExternalError msg).
Proof.
  intros Hbad.
  assert (H1 : coerce_buttons buttons = 1).
  { unfold coerce_buttons. destruct Hbad as [-> | [e He]]; [ reflexivity | ].
    destruct buttons; try reflexivity; rewrite He; reflexivity. }
  assert (Hreq : scene_requests controller_id clicks buttons
                 = map (legacy_request controller_id) clicks).
  { apply scene_requests_not_allowed. rewrite H1. unfold allow_multibutton.
    destruct (Re.search controller_id) as [m | ]; [ destruct (negb _) | ]; reflexivity. }
  assert (Hfits : Str.fits (coerce_buttons buttons) = true)
    by (rewrite H1; reflexivity).
  split; [ exact H1 | split ].
  - eapply same_trans; [ apply create_empty_scene_requests; exact Hfits | ].
    rewrite Hreq, <- flat_map_singleton. apply same_sym.
    apply for_each_send_all; intros click; apply post_empty_scene_request.
  - intros hub self history o; subst o.
    rewrite (create_empty_scene_requests _ _ _ Hfits), Hreq.
    destruct (send_all_any hub (map (legacy_request controller_id) clicks) self history)
      as (_ & Hk & _ & Hexn).
    split; [ exact Hk | exact Hexn ].
Qed.

Example coercion_of_long_literals :
  (exists n, Int.int (VStr (ones 4300)) = Ok n) /\
  Str.fits (coerce_buttons (VStr (ones 4300))) = true /\
  (exists e, Int.int (VStr (ones 4301)) = Raise e) /\
  coerce_buttons (VStr (ones 4301)) = 1.
Proof.
  split; [ eexists; vm_compute; reflexivity | split; [ vm_compute; reflexivity | split ] ].
  - eexists; vm_compute; reflexivity.
  - vm_compute; reflexivity.
Qed.

Lemma create_empty_scene_bad_count_witness :
  (VStr "three" = VNone \/ (exists e, Int.int (VStr "three") = Raise e)) /\
  coerce_buttons (VStr "three") = 1 /\
  issued (create_empty_scene "remote" ["singlePress"] (VStr "three")
            quiet_hub some_hub [])
  = [legacy_request "remote" "singlePress"].
Proof.
  assert (Hbad : VStr "three" = VNone \/ (exists e, Int.int (VStr "three") = Raise e))
    by (right; eexists; reflexivity).
  split; [ exact Hbad | ].
  destruct (create_empty_scene_bad_count "remote" ["singlePress"]%string
              (VStr "three") Hbad) as (H1 & Hsame & _).
  split; [ exact H1 | rewrite Hsame; reflexivity ].
Defined.

(** C10: with no click pattern the method issues no request, whatever
    the controller id, the button count and the hub; it returns when the
    button count fits the limit on digits, and otherwise ends with the
    [ValueError] of its first debug line. *)
Theorem create_empty_scene_no_clicks (hub : Hub) (self : HubX) (history : list Call)
    (controller_id : string) (buttons : value) :
  let o := create_empty_scene controller_id [] buttons hub self history in
  issued o = [] /\ self_after o = self /\
  res o = if Str.fits (coerce_buttons buttons) then Ok tt else Raise Str.limit_error.
Proof.
  intros o; subst o.
  destruct (Str.fits (coerce_buttons buttons)) eqn:Hfits.
  - rewrite (create_empty_scene_requests _ _ _ Hfits). repeat split.
  - rewrite (create_empty_scene_too_many_digits _ _ _ Hfits). repeat split.
Qed.

(** ** [delete_empty_scenes] *)








(** ** The typed getters *)

Lemma getitem_raises (d : value) (k : string) (e : exn) :
  Py.getitem d k = Raise e ->
  (exists k', e = KeyError k') \/ (exists msg, e = TypeError msg).
Proof.
  destruct d as [ | b | n | x | s | items | items ]; simpl;
    try (intros [= <-]; right; eexists; reflexivity).
  destruct (Py.assoc k items); [ discriminate | ].
  intros [= <-]; left; eexists; reflexivity.
Qed.

Section Getters.

Context `{Motion : Model MotionSensorX.t} `{Environment : Model EnvironmentSensorX.t}.

Variables (hub : Hub) (self : HubX) (history : list Call) (id_ : string).

(** The run of [get_motion_sensor_by_id], by cases on what the hub
    answers. *)
Lemma get_motion_sensor_by_id_run :
  get_motion_sensor_by_id id_ hub self history
  = match hub history (GetDeviceDataById id_) with
    | Fails msg => Outcome (Raise (ExternalError msg)) self [GetDeviceDataById id_]
    | Returns data =>
        match Py.getitem data "deviceType" with
        | Raise e => Outcome (Raise e) self [GetDeviceDataById id_]
        | Ok t =>
            if motion_type t
            then Outcome (constructed data) self [GetDeviceDataById id_]
            else Outcome
                   (Raise (ValueError "Device is not a MotionSensor or OccupancySensor"))
                   self [GetDeviceDataById id_]
        end
    end.
Proof.
  unfold get_motion_sensor_by_id, bind, call, motion_type.
  destruct (hub history (GetDeviceDataById id_)) as [data | msg]; [ | reflexivity ].
  cbn [res self_after issued].
  destruct (Py.getitem data "deviceType") as [t | e]; [ | reflexivity ].
  cbn [lift ret res self_after issued].
  destruct (Py.eq_str t "motionSensor" || Py.eq_str t "occupancySensor");
    [ | reflexivity ].
  cbn [negb]. unfold dict_to_motion_sensor_x, construct, constructed.
  destruct (model_validate data); reflexivity.
Qed.

Lemma get_environment_sensor_by_id_run :
  get_environment_sensor_by_id id_ hub self history
  = match hub history (GetDeviceDataById id_) with
    | Fails msg => Outcome (Raise (ExternalError msg)) self [GetDeviceDataById id_]
    | Returns data =>
        match Py.getitem data "deviceType" with
        | Raise e => Outcome (Raise e) self [GetDeviceDataById id_]
        | Ok t =>
            if environment_type t
            then Outcome (constructed data) self [GetDeviceDataById id_]
            else Outcome
                   (Raise (ValueError "Device is not an EnvironmentSensor"))
                   self [GetDeviceDataById id_]
        end
    end.
Proof.
  unfold get_environment_sensor_by_id, bind, call, environment_type.
  destruct (hub history (GetDeviceDataById id_)) as [data | msg]; [ | reflexivity ].
  cbn [res self_after issued].
  destruct (Py.getitem data "deviceType") as [t | e]; [ | reflexivity ].
  cbn [lift ret res self_after issued].
  destruct (Py.eq_str t "environmentSensor"); [ | reflexivity ].
  cbn [negb]. unfold dict_to_environment_sensor_x, construct, constructed.
  destruct (model_validate data); reflexivity.
Qed.

(** C8: each getter raises its own [ValueError] when the hub returned a
    record whose [deviceType] is not of the getter's type, and on a record
    of its type it gives what the patched class constructs from the
    record.  It catches nothing, so it ends with a [ValueError] exactly in
    three cases: the [deviceType] is not of its type; the library's fetch
    raised a [ValueError]; the type is right and the construction raised
    its validation error. *)
Theorem getters_check_device_type :
  let motion := get_motion_sensor_by_id id_ hub self history in
  let environment := get_environment_sensor_by_id id_ hub self history in
  (raises_value_error motion <->
   (exists data t,
      hub history (GetDeviceDataById id_) = Returns data /\
      Py.getitem data "deviceType" = Ok t /\
      Py.eq_str t "motionSensor" = false /\ Py.eq_str t "occupancySensor" = false) \/
   (exists msg,
      hub history (GetDeviceDataById id_) = Fails msg /\ value_error msg = true) \/
   (exists data t,
      hub history (GetDeviceDataById id_) = Returns data /\
      Py.getitem data "deviceType" = Ok t /\
      (Py.eq_str t "motionSensor" = true \/ Py.eq_str t "occupancySensor" = true) /\
      model_validate (A := MotionSensorX.t) data = None)) /\
  (raises_value_error environment <->
   (exists data t,
      hub history (GetDeviceDataById id_) = Returns data /\
      Py.getitem data "deviceType" = Ok t /\
      Py.eq_str t "environmentSensor" = false) \/
   (exists msg,
      hub history (GetDeviceDataById id_) = Fails msg /\ value_error msg = true) \/
   (exists data t,
      hub history (GetDeviceDataById id_) = Returns data /\
      Py.getitem data "deviceType" = Ok t /\
      Py.eq_str t "environmentSensor" = true /\
      model_validate (A := EnvironmentSensorX.t) data = None)) /\
  (forall data t,
     hub history (GetDeviceDataById id_) = Returns data ->
     Py.getitem data "deviceType" = Ok t ->
     (Py.eq_str t "motionSensor" = false /\ Py.eq_str t "occupancySensor" = false ->
      res motion
      = Raise (ValueError "Device is not a MotionSensor or OccupancySensor")) /\
     (Py.eq_str t "motionSensor" = true \/ Py.eq_str t "occupancySensor" = true ->
      res motion = constructed data) /\
     (Py.eq_str t "environmentSensor" = false ->
      res environment = Raise (ValueError "Device is not an EnvironmentSensor")) /\
     (Py.eq_str t "environmentSensor" = true ->
      res environment = constructed data)).
Proof.
  intros motion environment; subst motion environment. unfold raises_value_error.
  rewrite get_motion_sensor_by_id_run, get_environment_sensor_by_id_run.
  unfold motion_type, environment_type.
  destruct (hub history (GetDeviceDataById id_)) as [data | fail].
  - destruct (Py.getitem data "deviceType") as [t | e] eqn:Etype.
    + split; [ | split ].
      * destruct (Py.eq_str t "motionSensor" || Py.eq_str t "occupancySensor") eqn:E;
          cbn [res]; split.
        -- intros (e & He & Hv). right; right. exists data, t.
           apply orb_true_iff in E. unfold constructed in He.
           destruct (model_validate data); [ discriminate He | ]. auto.
        -- intros [(d & t' & [= <-] & Ht & H1 & H2) | [(msg & H & _) | H]].
           ++ rewrite Etype in Ht; injection Ht as <-.
              rewrite H1, H2 in E; discriminate.
           ++ discriminate H.
           ++ destruct H as (d & t' & [= <-] & _ & _ & Hnone).
              unfold constructed; rewrite Hnone. eexists; split; reflexivity.
        -- intros _. left. apply orb_false_elim in E. exists data, t; tauto.
        -- intros _; eexists; split; reflexivity.
      * destruct (Py.eq_str t "environmentSensor") eqn:E; cbn [res]; split.
        -- intros (e & He & Hv). right; right. exists data, t.
           unfold constructed in He.
           destruct (model_validate data); [ discriminate He | ]. auto.
        -- intros [(d & t' & [= <-] & Ht & H1) | [(msg & H & _) | H]].
           ++ rewrite Etype in Ht; injection Ht as <-. congruence.
           ++ discriminate H.
           ++ destruct H as (d & t' & [= <-] & _ & _ & Hnone).
              unfold constructed; rewrite Hnone. eexists; split; reflexivity.
        -- intros _. left. exists data, t; tauto.
        -- intros _; eexists; split; reflexivity.
      * intros d t' [= <-] Ht. rewrite Etype in Ht; injection Ht as <-.
        split; [ | split; [ | split ] ].
        -- intros [H1 H2]; rewrite H1, H2; reflexivity.
        -- intros H. apply orb_true_iff in H. rewrite H; reflexivity.
        -- intros ->; reflexivity.
        -- intros ->; reflexivity.
    + cbn [res].
      assert (Hnot : forall e', Raise (A := MotionSensorX.t) e = Raise e' ->
                                is_value_error e' = false).
      { intros e' [= <-].
        destruct (getitem_raises _ _ _ Etype) as [[k' ->] | [m ->]]; reflexivity. }
      assert (Hnot' : forall e', Raise (A := EnvironmentSensorX.t) e = Raise e' ->
                                 is_value_error e' = false).
      { intros e' [= <-].
        destruct (getitem_raises _ _ _ Etype) as [[k' ->] | [m ->]]; reflexivity. }
      split; [ | split ].
      * split.
        -- intros (e' & He & Hv). rewrite (Hnot e' He) in Hv; discriminate.
        -- intros [(d & t & [= <-] & Ht & _) | [(msg & H & _) | H]];
             [ congruence | discriminate H | ].
           destruct H as (d & t & [= <-] & Ht & _); congruence.
      * split.
        -- intros (e' & He & Hv). rewrite (Hnot' e' He) in Hv; discriminate.
        -- intros [(d & t & [= <-] & Ht & _) | [(msg & H & _) | H]];
             [ congruence | discriminate H | ].
           destruct H as (d & t & [= <-] & Ht & _); congruence.
      * intros d t [= <-] Ht; congruence.
  - cbn [res]. split; [ | split ].
    + split.
      * intros (e & [= <-] & Hv). right; left. exists fail; split; [ reflexivity | exact Hv ].
      * intros [(d & t & H & _) | [(msg & [= <-] & Hv) | (d & t & H & _)]];
          [ discriminate H | | discriminate H ].
        eexists; split; [ reflexivity | exact Hv ].
    + split.
      * intros (e & [= <-] & Hv). right; left. exists fail; split; [ reflexivity | exact Hv ].
      * intros [(d & t & H & _) | [(msg & [= <-] & Hv) | (d & t & H & _)]];
          [ discriminate H | | discriminate H ].
        eexists; split; [ reflexivity | exact Hv ].
    + intros d t H; discriminate H.
Qed.

End Getters.

(** C8, as stated, fails: when the client library answers an unknown device
    id with its [ValueError], [get_motion_sensor_by_id] ends with that
    [ValueError] although no device, and so no [deviceType], was
    fetched. *)
Lemma getter_value_error_without_device :
  raises_value_error
    (get_motion_sensor_by_id (model := any_motion_sensor) "d1" empty_hub some_hub []) /\
  ~ (exists data t,
       empty_hub [] (GetDeviceDataById "d1") = Returns data /\
       Py.getitem data "deviceType" = Ok t /\
       Py.eq_str t "motionSensor" = false /\ Py.eq_str t "occupancySensor" = false).
Proof.
  split.
  - exists (ExternalError device_not_found); split; reflexivity.
  - intros (data & t & H & _); discriminate H.
Qed.

Example get_motion_sensor_by_id_occupancy :
  res (get_motion_sensor_by_id (model := any_motion_sensor) "d1"
         (typed_hub "occupancySensor") some_hub [])
  = Ok (some_motion_sensor renamable) /\
  res (get_motion_sensor_by_id (model := any_motion_sensor) "d1"
         (typed_hub "light") some_hub [])
  = Raise (ValueError "Device is not a MotionSensor or OccupancySensor") /\
  res (get_environment_sensor_by_id (model := any_environment_sensor) "d1"
         (typed_hub "occupancySensor") some_hub [])
  = Raise (ValueError "Device is not an EnvironmentSensor").
Proof. repeat split. Qed.

(** ** [set_name] *)

Section SetName.

Variables (hub : Hub) (history : list Call) (name : string).

Lemma controller_set_name_run (self : ControllerX.t) :
  ControllerX.set_name name hub self history
  = if Py.mem "customName" (can_receive (Device.capabilities self)) then
      match hub history (rename_request (Device.id self) name) with
      | Returns _ =>
          Outcome (Ok tt)
            (Device.with_attributes
               (ControllerAttributesX.set_custom_name name (Device.attributes self))
               self)
            [rename_request (Device.id self) name]
      | Fails msg =>
          Outcome (Raise (ExternalError msg)) self
            [rename_request (Device.id self) name]
      end
    else
      Outcome
        (Raise (AssertionError "This controller does not support the set_name function"))
        self [].
Proof.
  unfold ControllerX.set_name, rename_request, bind, get_self, call, put_self.
  cbn [res self_after issued].
  destruct (Py.mem "customName" (can_receive (Device.capabilities self)));
    cbn [negb]; [ | reflexivity ].
  cbn [res self_after issued app]. rewrite !app_nil_r.
  destruct (hub history _); reflexivity.
Qed.

Lemma motion_sensor_set_name_run (self : MotionSensorX.t) :
  MotionSensorX.set_name name hub self history
  = if Py.mem "customName" (can_receive (Device.capabilities self)) then
      match hub history (rename_request (Device.id self) name) with
      | Returns _ =>
          Outcome (Ok tt)
            (Device.with_attributes
               (MotionSensorAttributesX.set_custom_name name (Device.attributes self))
               self)
            [rename_request (Device.id self) name]
      | Fails msg =>
          Outcome (Raise (ExternalError msg)) self
            [rename_request (Device.id self) name]
      end
    else
      Outcome
        (Raise (AssertionError "This sensor does not support the set_name function"))
        self [].
Proof.
  unfold MotionSensorX.set_name, rename_request, bind, get_self, call, put_self.
  cbn [res self_after issued].
  destruct (Py.mem "customName" (can_receive (Device.capabilities self)));
    cbn [negb]; [ | reflexivity ].
  cbn [res self_after issued app]. rewrite !app_nil_r.
  destruct (hub history _); reflexivity.
Qed.

Lemma environment_sensor_set_name_run (self : EnvironmentSensorX.t) :
  EnvironmentSensorX.set_name name hub self history
  = if Py.mem "customName" (can_receive (Device.capabilities self)) then
      match hub history (rename_request (Device.id self) name) with
      | Returns _ =>
          Outcome (Ok tt)
            (Device.with_attributes
               (EnvironmentSensorAttributesX.set_custom_name name (Device.attributes self))
               self)
            [rename_request (Device.id self) name]
      | Fails msg =>
          Outcome (Raise (ExternalError msg)) self
            [rename_request (Device.id self) name]
      end
    else
      Outcome
        (Raise (AssertionError "This sensor does not support the set_name function"))
        self [].
Proof.
  unfold EnvironmentSensorX.set_name, rename_request, bind, get_self, call, put_self.
  cbn [res self_after issued].
  destruct (Py.mem "customName" (can_receive (Device.capabilities self)));
    cbn [negb]; [ | reflexivity ].
  cbn [res self_after issued app]. rewrite !app_nil_r.
  destruct (hub history _); reflexivity.
Qed.

End SetName.

Lemma mem_In (s : string) (l : list string) : Py.mem s l = true <-> In s l.
Proof.
  unfold Py.mem; rewrite existsb_exists; split.
  - intros (x & Hin & Heq); apply String.eqb_eq in Heq; subst; exact Hin.
  - intros Hin; exists s; split; [ exact Hin | apply String.eqb_refl ].
Qed.

Lemma mem_not_In (s : string) (l : list string) : Py.mem s l = false <-> ~ In s l.
Proof.
  rewrite <- mem_In. destruct (Py.mem s l); split; try discriminate; try reflexivity.
  intros H; elim H; reflexivity.
Qed.

(** C9: [set_name] of a controller, of a motion sensor and of an
    environment sensor each check the capability: on a device whose
    [can_receive] lacks ["customName"] the method raises [AssertionError],
    issues no request and leaves the device unchanged; on a device that has
    it, no [AssertionError] is raised. *)
Theorem set_name_checks_capability :
  checks_capability ControllerX.set_name /\
  checks_capability MotionSensorX.set_name /\
  checks_capability EnvironmentSensorX.set_name.
Proof.
  split; [ | split ]; intros hub self history name o; subst o.
  - rewrite controller_set_name_run. split.
    + intros Hno; apply mem_not_In in Hno; rewrite Hno.
      repeat split; eexists; reflexivity.
    + intros Hin; apply mem_In in Hin; rewrite Hin.
      intros msg; destruct (hub history _); discriminate.
  - rewrite motion_sensor_set_name_run. split.
    + intros Hno; apply mem_not_In in Hno; rewrite Hno.
      repeat split; eexists; reflexivity.
    + intros Hin; apply mem_In in Hin; rewrite Hin.
      intros msg; destruct (hub history _); discriminate.
  - rewrite environment_sensor_set_name_run. split.
    + intros Hno; apply mem_not_In in Hno; rewrite Hno.
      repeat split; eexists; reflexivity.
    + intros Hin; apply mem_In in Hin; rewrite Hin.
      intros msg; destruct (hub history _); discriminate.
Qed.

Lemma set_name_checks_capability_witness :
  ~ In "customName"%string (can_receive (Device.capabilities (some_controller fixed_name))) /\
  In "customName"%string (can_receive (Device.capabilities (some_motion_sensor renamable))) /\
  (let o := ControllerX.set_name "Desk" quiet_hub (some_controller fixed_name) [] in
   (exists msg, res o = Raise (AssertionError msg)) /\
   issued o = [] /\ self_after o = some_controller fixed_name) /\
  (forall msg,
     res (MotionSensorX.set_name "Desk" quiet_hub (some_motion_sensor renamable) [])
     <> Raise (AssertionError msg)).
Proof.
  assert (Hno : ~ In "customName"%string
                  (can_receive (Device.capabilities (some_controller fixed_name))))
    by (intros []).
  assert (Hin : In "customName"%string
                  (can_receive (Device.capabilities (some_motion_sensor renamable))))
    by (left; reflexivity).
  split; [ exact Hno | split; [ exact Hin | ] ].
  destruct set_name_checks_capability as (Hcontroller & Hmotion & _).
  split.
  - exact (proj1 (Hcontroller quiet_hub (some_controller fixed_name) [] "Desk"%string) Hno).
  - exact (proj2 (Hmotion quiet_hub (some_motion_sensor renamable) [] "Desk"%string) Hin).
Defined.

Example set_name_renames :
  ControllerX.set_name "Desk" quiet_hub (some_controller renamable) []
  = Outcome (Ok tt)
      (Device.with_attributes
         (ControllerAttributesX.set_custom_name "Desk"
            (Device.attributes (some_controller renamable)))
         (some_controller renamable))
      [rename_request "c1" "Desk"].
Proof. reflexivity. Qed.

(* ================================================================== *)
(** * Further properties *)

(** ** Runs that meet a failing hub *)

(** A run of [send_all] either gets through the whole list or ends at the
    first request the hub fails, with the hub's error. *)
Lemma send_all_outcome {X : Type} (hub : Hub) (cs : list Call) (self : X) :
  forall history,
    let o := send_all cs hub self history in
    self_after o = self /\
    ((res o = Ok tt /\ issued o = cs) \/
     (exists pre c post msg,
        cs = pre ++ c :: post /\ issued o = pre ++ [c] /\
        hub (history ++ pre) c = Fails msg /\
        res o = Raise (ExternalError msg))).
Proof.
  induction cs as [ | c cs IH ]; intros history; simpl.
  - split; [ reflexivity | left; split; reflexivity ].
  - unfold bind, call. destruct (hub history c) as [v | msg] eqn:Hc; simpl.
    + destruct (IH (history ++ [c])) as (Hself & [[Hres Hall] | Hfail]).
      * split; [ exact Hself | left ]. rewrite Hall; split; [ exact Hres | reflexivity ].
      * split; [ exact Hself | right ].
        destruct Hfail as (pre & c' & post & msg & -> & Hissued & Hhub & Hres).
        exists (c :: pre), c', post, msg. rewrite Hissued.
        rewrite <- app_assoc in Hhub. repeat split; assumption.
    + split; [ reflexivity | right ].
      exists [], c, cs, msg. rewrite app_nil_r. repeat split; assumption.
Qed.

(** X7: whatever the hub answers, [create_empty_scene] leaves the hub
    object as it is.  With a button count that fits the limit on digits it
    either returns with all its requests issued, or stops at the first
    request the hub fails: that request is the last one issued and the
    exception is the hub's.  With a count of more digits it issues nothing
    and ends with the [ValueError] of its first debug line. *)
Theorem create_empty_scene_stops_at_failure (hub : Hub) (self : HubX)
    (history : list Call) (controller_id : string) (clicks : list string)
    (buttons : value) :
  let o := create_empty_scene controller_id clicks buttons hub self history in
  let requests := scene_requests controller_id clicks buttons in
  self_after o = self /\
  if Str.fits (coerce_buttons buttons) then
    (res o = Ok tt /\ issued o = requests) \/
    (exists pre c post msg,
       requests = pre ++ c :: post /\ issued o = pre ++ [c] /\
       hub (history ++ pre) c = Fails msg /\
       res o = Raise (ExternalError msg))
  else res o = Raise Str.limit_error /\ issued o = [].
Proof.
  intros o requests; subst o requests.
  destruct (Str.fits (coerce_buttons buttons)) eqn:Hfits.
  - rewrite (create_empty_scene_requests _ _ _ Hfits). apply send_all_outcome.
  - rewrite (create_empty_scene_too_many_digits _ _ _ Hfits). repeat split.
Qed.

Example create_empty_scene_second_request_fails :
  create_empty_scene "remote" ["singlePress"] (VInt 3) (hub_failing_after 1) some_hub []
  = Outcome (Raise (ExternalError "hub unavailable")) some_hub
      [ legacy_request "remote" "singlePress";
        button_request "remote" "singlePress" 1 ].
Proof. reflexivity. Qed.

(** ** Which scenes [create_empty_scene] creates *)

Lemma create_empty_scene_legacy_loop (controller_id : string) (clicks : list string)
    (buttons : value) :
  Str.fits (coerce_buttons buttons) = true ->
  allow_multibutton controller_id (coerce_buttons buttons) = false ->
  create_empty_scene controller_id clicks buttons ~~ legacy_loop controller_id clicks.
Proof.
  intros Hfits Hno.
  eapply same_trans; [ apply create_empty_scene_requests; exact Hfits | ].
  rewrite (scene_requests_not_allowed _ _ _ Hno), <- flat_map_singleton.
  apply same_sym. unfold legacy_loop.
  apply for_each_send_all; intros click; apply post_empty_scene_request.
Qed.

(** X6: a button count of 1 or less that fits the limit on digits, zero
    and negative counts included, gives the loop of legacy requests, for
    every controller id and against every hub. *)
Theorem create_empty_scene_small_count (controller_id : string) (clicks : list string)
    (buttons : value) :
  Str.fits (coerce_buttons buttons) = true ->
  coerce_buttons buttons <= 1 ->
  create_empty_scene controller_id clicks buttons ~~ legacy_loop controller_id clicks.
Proof.
  intros Hfits Hsmall. apply create_empty_scene_legacy_loop; [ exact Hfits | ].
  destruct (allow_multibutton controller_id (coerce_buttons buttons)) eqn:E;
    [ | reflexivity ].
  apply allow_multibutton_spec in E; lia.
Qed.

Lemma create_empty_scene_small_count_witness :
  Str.fits (coerce_buttons (VStr "-2")) = true /\
  coerce_buttons (VStr "-2") <= 1 /\
  create_empty_scene "remote" ["singlePress"; "longPress"] (VStr "-2")
    quiet_hub some_hub []
  = Outcome (Ok tt) some_hub
      [legacy_request "remote" "singlePress"; legacy_request "remote" "longPress"].
Proof.
  assert (Hfits : Str.fits (coerce_buttons (VStr "-2")) = true) by reflexivity.
  assert (Hsmall : coerce_buttons (VStr "-2") <= 1) by (vm_compute; discriminate).
  split; [ exact Hfits | split; [ exact Hsmall | ] ].
  rewrite (create_empty_scene_small_count "remote" ["singlePress"; "longPress"]%string
             (VStr "-2") Hfits Hsmall).
  reflexivity.
Defined.

(** X5: a controller id without a newline that ends in a numeric suffix
    other than [_1] gets the loop of legacy requests, whatever the button
    count among those that fit the limit on digits. *)
Theorem create_empty_scene_secondary_id (controller_id : string) (clicks : list string)
    (buttons : value) :
  Str.contains Str.newline controller_id = false ->
  Suffix.numeric controller_id ->
  ~ Suffix.ends_with controller_id "_1" ->
  Str.fits (coerce_buttons buttons) = true ->
  create_empty_scene controller_id clicks buttons ~~ legacy_loop controller_id clicks.
Proof.
  intros Hplain Hnum Hnot1 Hfits.
  apply create_empty_scene_legacy_loop; [ exact Hfits | ].
  destruct (allow_multibutton controller_id (coerce_buttons buttons)) eqn:E;
    [ | reflexivity ].
  apply (allow_multibutton_plain controller_id Hplain) in E.
  destruct E as [_ [Hno | H1]]; contradiction.
Qed.

Lemma create_empty_scene_secondary_id_witness :
  Str.contains Str.newline "remote_2" = false /\
  Suffix.numeric "remote_2" /\
  ~ Suffix.ends_with "remote_2" "_1" /\
  Str.fits (coerce_buttons (VInt 5)) = true /\
  create_empty_scene "remote_2" ["singlePress"] (VInt 5) quiet_hub some_hub []
  = Outcome (Ok tt) some_hub [legacy_request "remote_2" "singlePress"].
Proof.
  assert (Hplain : Str.contains Str.newline "remote_2" = false) by reflexivity.
  assert (Hnum : Suffix.numeric "remote_2")
    by (exists "remote"%string, "2"%string; repeat split; discriminate).
  assert (Hnot1 : ~ Suffix.ends_with "remote_2" "_1")
    by (intros H; apply ends_with_last in H; discriminate).
  assert (Hfits : Str.fits (coerce_buttons (VInt 5)) = true) by reflexivity.
  split; [ exact Hplain | split; [ exact Hnum | split; [ exact Hnot1 | ] ] ].
  split; [ exact Hfits | ].
  rewrite (create_empty_scene_secondary_id "remote_2" ["singlePress"]%string (VInt 5)
             Hplain Hnum Hnot1 Hfits).
  reflexivity.
Defined.

Lemma range_length (lo hi : Z) : length (Py.range lo hi) = Z.to_nat (hi - lo).
Proof. unfold Py.range; rewrite length_map, length_seq; reflexivity. Qed.

Lemma range_In (lo hi i : Z) : In i (Py.range lo hi) <-> lo <= i < hi.
Proof.
  unfold Py.range; rewrite in_map_iff; split.
  - intros (k & <- & Hk); apply in_seq in Hk; lia.
  - intros Hi; exists (Z.to_nat (i - lo)); split; [ lia | apply in_seq; lia ].
Qed.

Lemma range_NoDup (lo hi : Z) : NoDup (Py.range lo hi).
Proof.
  unfold Py.range. apply NoDup_map_NoDup_ForallPairs; [ | apply seq_NoDup ].
  intros a b _ _ H; lia.
Qed.

Lemma flat_map_length_const {A B : Type} (f : A -> list B) (k : nat) (l : list A) :
  (forall a, length (f a) = k) -> length (flat_map f l) = (length l * k)%nat.
Proof.
  intros Hf; induction l as [ | a l IH ]; simpl; [ reflexivity | ].
  rewrite length_app, Hf, IH; reflexivity.
Qed.

(** X4: for a primary controller id without a newline and a button count
    [n] above 1 that fits the limit on digits, against a hub that answers
    scene creations, the method returns after issuing, for each click
    pattern in turn, the legacy request and then the requests of buttons 1
    to [n] in ascending order: [n + 1] requests per click pattern, and
    every button index lies between 0 and [n], so that it fits the limit
    on digits when the name of its scene is formatted. *)
Theorem create_empty_scene_primary_plain (hub : Hub) (self : HubX)
    (history : list Call) (controller_id : string) (clicks : list string)
    (buttons : value) :
  Str.contains Str.newline controller_id = false ->
  Suffix.primary controller_id ->
  coerce_buttons buttons > 1 ->
  Str.fits (coerce_buttons buttons) = true ->
  accepts_posts hub ->
  let n := coerce_buttons buttons in
  let o := create_empty_scene controller_id clicks buttons hub self history in
  res o = Ok tt /\
  issued o
  = flat_map
      (fun click =>
         legacy_request controller_id click
         :: map (button_request controller_id click) (Py.range 1 (n + 1)))
      clicks /\
  Z.of_nat (length (issued o)) = Z.of_nat (length clicks) * (n + 1) /\
  (forall c i, In c (issued o) -> Request.button_index c = Some i ->
     0 <= i <= n /\ Str.fits i = true).
Proof.
  intros Hplain Hprimary Hn Hfits Hacc n o; subst n o.
  rewrite (create_empty_scene_accepted _ _ _ _ _ _ Hfits Hacc); cbn [res issued].
  assert (Hallow : allow_multibutton controller_id (coerce_buttons buttons) = true)
    by (apply allow_multibutton_plain; auto).
  unfold scene_requests; rewrite Hallow.
  split; [ reflexivity | split; [ reflexivity | split ] ].
  - rewrite (flat_map_length_const _ (S (Z.to_nat (coerce_buttons buttons)))).
    + lia.
    + intros click; cbn [length]. rewrite length_map, range_length. f_equal; lia.
  - intros c i Hin Hi. apply in_flat_map in Hin.
    assert (Hi' : 0 <= i <= coerce_buttons buttons).
    { destruct Hin as (click & _ & [<- | Hin]).
      - injection Hi as <-; lia.
      - apply in_map_iff in Hin; destruct Hin as (j & <- & Hj).
        injection Hi as <-. apply range_In in Hj; lia. }
    split; [ exact Hi' | ].
    apply (fits_le i (coerce_buttons buttons)); [ lia | exact Hfits ].
Qed.

Lemma create_empty_scene_primary_plain_witness :
  Str.contains Str.newline "remote_1" = false /\
  Suffix.primary "remote_1" /\
  coerce_buttons (VStr "2") > 1 /\
  Str.fits (coerce_buttons (VStr "2")) = true /\
  accepts_posts quiet_hub /\
  issued (create_empty_scene "remote_1" ["singlePress"; "doublePress"] (VStr "2")
            quiet_hub some_hub [])
  = [ legacy_request "remote_1" "singlePress";
      button_request "remote_1" "singlePress" 1;
      button_request "remote_1" "singlePress" 2;
      legacy_request "remote_1" "doublePress";
      button_request "remote_1" "doublePress" 1;
      button_request "remote_1" "doublePress" 2 ].
Proof.
  assert (Hplain : Str.contains Str.newline "remote_1" = false) by reflexivity.
  assert (Hprimary : Suffix.primary "remote_1")
    by (right; exists "remote"%string; reflexivity).
  assert (Hn : coerce_buttons (VStr "2") > 1) by reflexivity.
  assert (Hfits : Str.fits (coerce_buttons (VStr "2")) = true) by reflexivity.
  assert (Hacc : accepts_posts quiet_hub)
    by (intros history route data; exists VNone; reflexivity).
  split; [ exact Hplain | split; [ exact Hprimary | split; [ exact Hn | ] ] ].
  split; [ exact Hfits | split; [ exact Hacc | ] ].
  destruct (create_empty_scene_primary_plain quiet_hub some_hub [] "remote_1"
              ["singlePress"; "doublePress"]%string (VStr "2")
              Hplain Hprimary Hn Hfits Hacc) as (_ & Hissued & _).
  rewrite Hissued; reflexivity.
Defined.

Lemma create_empty_scene_multibutton_plain_witness :
  Str.contains Str.newline "remote_2" = false /\
  Str.fits (coerce_buttons (VInt 3)) = true /\
  accepts_posts quiet_hub /\
  ["singlePress"]%string <> [] /\
  (filter Request.is_multibutton
     (issued (create_empty_scene "remote_2" ["singlePress"] (VInt 3)
                quiet_hub some_hub [])) <> []
   <-> coerce_buttons (VInt 3) > 1 /\ Suffix.primary "remote_2").
Proof.
  assert (Hplain : Str.contains Str.newline "remote_2" = false) by reflexivity.
  assert (Hacc : accepts_posts quiet_hub)
    by (intros history route data; exists VNone; reflexivity).
  assert (Hclicks : ["singlePress"]%string <> []) by discriminate.
  assert (Hfits : Str.fits (coerce_buttons (VInt 3)) = true) by reflexivity.
  split; [ exact Hplain | split; [ exact Hfits | split; [ exact Hacc | ] ] ].
  split; [ exact Hclicks | ].
  exact (create_empty_scene_multibutton_plain quiet_hub some_hub [] "remote_2"
           ["singlePress"]%string (VInt 3) Hplain Hfits Hacc Hclicks).
Defined.

(** X8: every request the method issues, whatever the hub answers, creates
    a custom scene with no action and one enabled controller trigger on
    the given controller id. *)
Theorem create_empty_scene_event_generators (hub : Hub) (self : HubX)
    (history : list Call) (controller_id : string) (clicks : list string)
    (buttons : value) :
  Forall (event_generator controller_id)
    (issued (create_empty_scene controller_id clicks buttons hub self history)).
Proof.
  destruct (create_empty_scene_issued hub self history controller_id clicks buttons)
    as (_ & [k ->]).
  apply Forall_firstn_of, scene_requests_all.
  intros click type index. unfold event_generator, scene_request.
  eexists; eexists; split; [ reflexivity | repeat split ].
Qed.

(** ** Scene names are distinct *)

Section Names.

Local Open Scope string_scope.

Lemma append_inj_l (p a b : string) : p ++ a = p ++ b -> a = b.
Proof. induction p as [ | c p IH ]; simpl; [ auto | intros [= H]; auto ]. Qed.

Lemma uint_no_underscore (d : Decimal.uint) :
  Str.contains Str.underscore (NilEmpty.string_of_uint d) = false.
Proof. induction d; simpl; auto. Qed.

Lemma of_Z_no_underscore (n : Z) : Str.contains Str.underscore (Str.of_Z n) = false.
Proof.
  unfold Str.of_Z, NilZero.string_of_int, NilZero.string_of_uint.
  destruct (Z.to_int n) as [d | d]; destruct d; simpl;
    try reflexivity; apply uint_no_underscore.
Qed.

Lemma to_int_not_nil (n : Z) :
  Z.to_int n <> Decimal.Pos Decimal.Nil /\ Z.to_int n <> Decimal.Neg Decimal.Nil.
Proof.
  destruct n as [ | p | p ]; simpl; split; try discriminate;
    intros [= H]; exact (Unsigned.to_uint_nonnil p H).
Qed.

(** [str] of an [int] determines the [int]. *)
Lemma of_Z_inj (a b : Z) : Str.of_Z a = Str.of_Z b -> a = b.
Proof.
  unfold Str.of_Z; intros H. apply to_int_inj.
  destruct (to_int_not_nil a) as [Ha Ha'], (to_int_not_nil b) as [Hb Hb'].
  pose proof (NilZero.isi _ Ha Ha') as Ia. pose proof (NilZero.isi _ Hb Hb') as Ib.
  rewrite H in Ia; congruence.
Qed.

(** The text before the first occurrence of a character is determined. *)
Lemma split_first_unique (c : ascii) (a a' u u' : string) :
  Str.contains c a = false -> Str.contains c a' = false ->
  a ++ String c u = a' ++ String c u' -> a = a' /\ u = u'.
Proof.
  revert a'; induction a as [ | x a IH ]; intros [ | x' a' ]; simpl.
  - intros _ _ [= ->]; auto.
  - intros _ H [= <- _]. rewrite Ascii.eqb_refl in H; discriminate.
  - intros H _ [= -> _]. rewrite Ascii.eqb_refl in H; discriminate.
  - intros Ha Ha' [= -> H].
    apply orb_false_elim in Ha; apply orb_false_elim in Ha'.
    destruct (IH a') as [-> ->]; tauto.
Qed.

(** For one controller id, the name of a scene determines its click
    pattern, its trigger type and its button index. *)
Lemma scene_name_inj (controller_id click click' type type' : string) (i i' : Z) :
  trigger_type type -> trigger_type type' ->
  scene_name controller_id click type i = scene_name controller_id click' type' i' ->
  click = click' /\ type = type' /\ i = i'.
Proof.
  unfold scene_name; intros Ht Ht' H.
  apply append_inj_l, append_inj_l in H. injection H as H.
  assert (Htype : type = type' /\
                  Str.of_Z i ++ "_" ++ click = Str.of_Z i' ++ "_" ++ click').
  { destruct Ht as [-> | ->], Ht' as [-> | ->]; simpl in H; try discriminate H.
    - split; [ reflexivity | ].
      apply (append_inj_l "shortcutController_"); exact H.
    - split; [ reflexivity | ].
      apply (append_inj_l "lightController_"); exact H. }
  destruct Htype as [-> Hrest].
  apply split_first_unique in Hrest; try apply of_Z_no_underscore.
  destruct Hrest as [Hi ->]. apply of_Z_inj in Hi; auto.
Qed.

End Names.

Lemma some_inj {A : Type} (a b : A) : Some a = Some b -> a = b.
Proof. intros [= H]; exact H. Qed.

Lemma request_name (controller_id click type : string) (index : Z) :
  Request.name (scene_request controller_id click type index)
  = Some (scene_name controller_id click type index).
Proof. reflexivity. Qed.

(** The names of the requests of one click pattern. *)
Lemma click_names (controller_id click : string) (indices : list Z) (x : option string) :
  In x (map Request.name
          (legacy_request controller_id click
           :: map (button_request controller_id click) indices)) ->
  exists type index,
    trigger_type type /\ x = Some (scene_name controller_id click type index).
Proof.
  intros [<- | Hin].
  - exists "shortcutController"%string, 0; split; [ left; reflexivity | reflexivity ].
  - rewrite map_map in Hin. apply in_map_iff in Hin; destruct Hin as (i & <- & _).
    exists "lightController"%string, i; split; [ right; reflexivity | reflexivity ].
Qed.

Lemma click_names_NoDup (controller_id click : string) (indices : list Z) :
  NoDup indices ->
  NoDup (map Request.name
           (legacy_request controller_id click
            :: map (button_request controller_id click) indices)).
Proof.
  intros Hnd. cbn [map]. constructor.
  - rewrite map_map; intros Hin. apply in_map_iff in Hin.
    destruct Hin as (i & Hi & _). unfold button_request, legacy_request in Hi.
    rewrite !request_name in Hi. apply some_inj in Hi.
    apply scene_name_inj in Hi; [ | right; reflexivity | left; reflexivity ].
    destruct Hi as (_ & Hi & _); discriminate Hi.
  - rewrite map_map. apply NoDup_map_NoDup_ForallPairs; [ | exact Hnd ].
    intros a b _ _ H. unfold button_request in H. rewrite !request_name in H.
    apply some_inj in H.
    apply scene_name_inj in H; [ tauto | right; reflexivity | right; reflexivity ].
Qed.

Lemma scene_requests_names_NoDup (controller_id : string) (clicks : list string)
    (buttons : value) :
  NoDup clicks ->
  NoDup (map Request.name (scene_requests controller_id clicks buttons)).
Proof.
  unfold scene_requests.
  set (n := coerce_buttons buttons).
  set (indices := if allow_multibutton controller_id n then Py.range 1 (n + 1) else []).
  assert (Hshape : forall click,
    legacy_request controller_id click
    :: (if allow_multibutton controller_id n
        then map (button_request controller_id click) (Py.range 1 (n + 1))
        else [])
    = legacy_request controller_id click
      :: map (button_request controller_id click) indices).
  { intros click; subst indices; destruct (allow_multibutton controller_id n); reflexivity. }
  assert (Hindices : NoDup indices).
  { subst indices; destruct (allow_multibutton controller_id n);
      [ apply range_NoDup | constructor ]. }
  induction 1 as [ | click clicks Hnotin Hnd IH ]; [ constructor | ].
  cbn [flat_map]. rewrite map_app, Hshape.
  apply NoDup_app; [ apply click_names_NoDup; exact Hindices | exact IH | ].
  intros x Hx Hx'. apply click_names in Hx.
  destruct Hx as (type & index & Htype & ->).
  apply in_map_iff in Hx'; destruct Hx' as (c & Hc & Hin).
  apply in_flat_map in Hin; destruct Hin as (click' & Hclick' & Hin).
  rewrite Hshape in Hin.
  assert (Hx : In (Request.name c)
                 (map Request.name
                    (legacy_request controller_id click'
                     :: map (button_request controller_id click') indices)))
    by (apply in_map; exact Hin).
  apply click_names in Hx. destruct Hx as (type' & index' & Htype' & Hname).
  rewrite Hname in Hc. apply some_inj in Hc.
  apply scene_name_inj in Hc; [ | assumption | assumption ].
  destruct Hc as (-> & _). contradiction.
Qed.

(** X9: when the click patterns are pairwise distinct, no two scenes
    created by one run have the same name, whatever the hub answers. *)
Theorem create_empty_scene_names_distinct (hub : Hub) (self : HubX)
    (history : list Call) (controller_id : string) (clicks : list string)
    (buttons : value) :
  NoDup clicks ->
  NoDup (map Request.name
           (issued (create_empty_scene controller_id clicks buttons hub self history))).
Proof.
  intros Hnd.
  destruct (create_empty_scene_issued hub self history controller_id clicks buttons)
    as (_ & [k ->]).
  pose proof (scene_requests_names_NoDup controller_id clicks buttons Hnd) as Hall.
  rewrite <- (firstn_skipn k (scene_requests controller_id clicks buttons)), map_app in Hall.
  apply NoDup_app_remove_r in Hall. exact Hall.
Qed.

Lemma create_empty_scene_names_distinct_witness :
  NoDup ["singlePress"; "doublePress"]%string /\
  NoDup (map Request.name
           (issued (create_empty_scene "remote" ["singlePress"; "doublePress"] (VInt 2)
                      quiet_hub some_hub []))).
Proof.
  assert (Hnd : NoDup ["singlePress"; "doublePress"]%string).
  { constructor; [ intros [H | []]; discriminate H | ].
    constructor; [ intros [] | constructor ]. }
  split; [ exact Hnd | ].
  exact (create_empty_scene_names_distinct quiet_hub some_hub [] "remote"
           ["singlePress"; "doublePress"]%string (VInt 2) Hnd).
Defined.

(** ** Reading scenes *)

Lemma map_by_ok {A B : Type} (f : A -> result B) (l : list A) (bs : list B) :
  map_by f l = Ok bs <-> Forall2 (fun a b => f a = Ok b) l bs.
Proof.
  revert bs; induction l as [ | a l IH ]; intros bs; simpl.
  - split; [ intros [= <-]; constructor | intros H; inversion H; reflexivity ].
  - destruct (f a) as [b | e] eqn:Ea.
    + destruct (map_by f l) as [bs' | e] eqn:El.
      * split.
        -- intros [= <-]; constructor; [ exact Ea | apply IH; reflexivity ].
        -- intros H; inversion H as [ | a' b' l' bs'' Hb Hrest ]; subst.
           apply IH in Hrest. congruence.
      * split; [ discriminate | ].
        intros H; inversion H as [ | a' b' l' bs'' Hb Hrest ]; subst.
        apply IH in Hrest; discriminate.
    + split; [ discriminate | ].
      intros H; inversion H as [ | a' b' l' bs'' Hb Hrest ]; subst. congruence.
Qed.

Lemma map_by_raise {A B : Type} (f : A -> result B) (l : list A) :
  (exists a e, In a l /\ f a = Raise e) -> exists e, map_by f l = Raise e.
Proof.
  intros (a & e & Hin & Ha). destruct (map_by f l) as [bs | e'] eqn:E; [ | eauto ].
  apply map_by_ok in E. exfalso. revert bs E.
  induction l as [ | x l IH ]; intros bs E; [ destruct Hin | ].
  inversion E as [ | x' b' l' bs' Hb Hrest ]; subst.
  destruct Hin as [-> | Hin]; [ congruence | eapply IH; eauto ].
Qed.

Lemma comprehension_lift {X A B : Type} (f : A -> result B) (l : list A) :
  comprehension (X := X) l (fun a => lift (f a)) ~~ lift (map_by f l).
Proof.
  induction l as [ | a l IH ]; simpl; [ apply same_refl | ].
  destruct (f a) as [b | e]; simpl.
  - eapply same_trans; [ apply bind_ret_l | ].
    eapply same_trans; [ apply bind_cong; [ exact IH | intros bs; apply same_refl ] | ].
    destruct (map_by f l) as [bs | e]; simpl.
    + apply (bind_ret_l bs (fun bs => ret (b :: bs))).
    + intros hub self history; reflexivity.
  - intros hub self history; reflexivity.
Qed.

(** The run of [get_scenes], by cases on what the hub answers. *)
Lemma get_scenes_run (hub : Hub) (self : HubX) (history : list Call) :
  get_scenes hub self history
  = Outcome
      match hub history (Get "/scenes") with
      | Fails msg => Raise (ExternalError msg)
      | Returns v =>
          match Py.iter v with
          | Raise e => Raise e
          | Ok items => map_by HackScene.make_scene items
          end
      end
      self [Get "/scenes"].
Proof.
  unfold get_scenes.
  destruct (hub history (Get "/scenes")) as [v | msg] eqn:Hget.
  - rewrite (bind_ok _ _ _ _ _ _ _ _ (call_returns _ _ _ _ _ Hget)).
    destruct (Py.iter v) as [items | e]; simpl lift.
    + rewrite (bind_ret_l (X := HubX) items), comprehension_lift.
      destruct (map_by HackScene.make_scene items); reflexivity.
    + reflexivity.
  - rewrite (bind_raise _ _ _ _ _ _ _ _ (call_fails _ _ _ _ _ Hget)). reflexivity.
Qed.

(** X10: a hub record is a scene exactly when it is a dict with an ["id"]
    and an ["info"] that is a dict with a ["name"] and an ["icon"]; these
    three values are the scene's. *)
Theorem make_scene_fields (item : value) (scene : HackScene.t) :
  HackScene.make_scene item = Ok scene <->
  exists fields info,
    item = VDict fields /\
    Py.assoc "id" fields = Some (HackScene.id scene) /\
    Py.assoc "info" fields = Some (VDict info) /\
    Py.assoc "name" info = Some (HackScene.name scene) /\
    Py.assoc "icon" info = Some (HackScene.icon scene).
Proof.
  unfold HackScene.make_scene, HackScene.parse_scene_json. split.
  - destruct item as [ | b | n | x | s | items | fields ]; simpl; try discriminate.
    destruct (Py.assoc "id" fields) as [id | ] eqn:Eid; simpl; [ | discriminate ].
    destruct (Py.assoc "info" fields) as [info | ] eqn:Einfo; simpl; [ | discriminate ].
    destruct info as [ | b | n | x | s | items | info ]; simpl; try discriminate.
    destruct (Py.assoc "name" info) as [name | ] eqn:Ename; simpl; [ | discriminate ].
    destruct (Py.assoc "icon" info) as [icon | ] eqn:Eicon; simpl; [ | discriminate ].
    intros [= <-]. exists fields, info; simpl. repeat split; assumption.
  - intros (fields & info & -> & Hid & Hinfo & Hname & Hicon); simpl.
    rewrite Hid, Hinfo; simpl. rewrite Hname, Hicon.
    destruct scene; reflexivity.
Qed.

(** X11: [get_scenes] issues one request, the listing, whatever the hub
    answers, and it returns a list of scenes exactly when the hub returned
    something iterable all of whose elements are scenes; the scenes are
    then those elements, in order: one bad record fails the whole
    listing. *)
Theorem get_scenes_all_or_nothing (hub : Hub) (self : HubX) (history : list Call) :
  let o := get_scenes hub self history in
  issued o = [Get "/scenes"] /\ self_after o = self /\
  (forall scenes,
     res o = Ok scenes <->
     exists v items,
       hub history (Get "/scenes") = Returns v /\ Py.iter v = Ok items /\
       Forall2 (fun item scene => HackScene.make_scene item = Ok scene) items scenes) /\
  (forall v items item e,
     hub history (Get "/scenes") = Returns v -> Py.iter v = Ok items ->
     In item items -> HackScene.make_scene item = Raise e ->
     exists e', res o = Raise e').
Proof.
  intros o; subst o. rewrite get_scenes_run; cbn [res issued self_after].
  split; [ reflexivity | split; [ reflexivity | split ] ].
  - intros scenes.
    destruct (hub history (Get "/scenes")) as [v | msg].
    + destruct (Py.iter v) as [items | e] eqn:Eiter.
      * rewrite map_by_ok. split.
        -- intros H; exists v, items.
           split; [ reflexivity | split; [ exact Eiter | exact H ] ].
        -- intros (v' & items' & [= <-] & Hiter & H). congruence.
      * split; [ discriminate | ].
        intros (v' & items' & [= <-] & Hiter & _); congruence.
    + split; [ discriminate | intros (v' & items' & H & _); discriminate ].
  - intros v items item e Hget Hiter Hin Hbad. rewrite Hget, Hiter.
    apply map_by_raise. exists item, e; auto.
Qed.

(** X12: [get_scene_by_id] issues one request, for the route of the given
    id, and returns a scene exactly when the hub returned a record that is
    a scene. *)
Theorem get_scene_by_id_one_request (hub : Hub) (self : HubX) (history : list Call)
    (scene_id : string) :
  let o := get_scene_by_id scene_id hub self history in
  issued o = [Get ("/scenes/" ++ scene_id)] /\ self_after o = self /\
  (forall scene,
     res o = Ok scene <->
     exists v,
       hub history (Get ("/scenes/" ++ scene_id)) = Returns v /\
       HackScene.make_scene v = Ok scene) /\
  (forall msg,
     hub history (Get ("/scenes/" ++ scene_id)) = Fails msg ->
     res o = Raise (ExternalError msg)).
Proof.
  intros o; subst o. unfold get_scene_by_id, bind, call.
  destruct (hub history (Get ("/scenes/" ++ scene_id))) as [v | msg];
    cbn [res issued self_after].
  - destruct (HackScene.make_scene v) as [scene' | e] eqn:Escene;
      cbn [lift ret raise res issued self_after app].
    + split; [ reflexivity | split; [ reflexivity | split ] ].
      * intros scene; split.
        -- intros [= <-]; exists v; split; [ reflexivity | exact Escene ].
        -- intros (v' & [= <-] & H); congruence.
      * intros msg H; discriminate H.
    + split; [ reflexivity | split; [ reflexivity | split ] ].
      * intros scene; split; [ discriminate | ].
        intros (v' & [= <-] & H); congruence.
      * intros msg H; discriminate H.
  - split; [ reflexivity | split; [ reflexivity | split ] ].
    + intros scene; split; [ discriminate | ].
      intros (v' & H & _); discriminate H.
    + intros msg' [= <-]; reflexivity.
Qed.

(** ** More on [delete_empty_scenes] *)




(** X14: when one record of the listing is no scene, the method deletes
    nothing: the listing is its only request and it ends with an
    exception, also when marked scenes are listed before the bad record. *)
Theorem delete_empty_scenes_bad_record (hub : Hub) (self : HubX) (history : list Call)
    (v : value) (items : list value) (item : value) (e : exn) :
  hub history (Get "/scenes") = Returns v ->
  Py.iter v = Ok items ->
  In item items ->
  HackScene.make_scene item = Raise e ->
  let o := delete_empty_scenes hub self history in
  issued o = [Get "/scenes"] /\ self_after o = self /\ exists e', res o = Raise e'.
Proof.
  intros Hget Hiter Hin Hbad o; subst o.
  destruct (map_by_raise HackScene.make_scene items) as [e' He'];
    [ exists item, e; auto | ].
  assert (Hrun : get_scenes hub self history = Outcome (Raise e') self [Get "/scenes"])
    by (rewrite get_scenes_run, Hget, Hiter, He'; reflexivity).
  unfold delete_empty_scenes. rewrite (bind_raise _ _ _ _ _ _ _ _ Hrun).
  cbn [issued self_after res]. repeat split. exists e'; reflexivity.
Qed.

Lemma delete_empty_scenes_bad_record_witness :
  In record_without_icon
    [ scene_record "s1"
        "dirigera_integration_empty_scene_r_shortcutController_0_singlePress";
      record_without_icon ] /\
  HackScene.make_scene record_without_icon = Raise (KeyError "icon") /\
  issued (delete_empty_scenes bad_listing_hub some_hub []) = [Get "/scenes"].
Proof.
  assert (Hin : In record_without_icon
                  [ scene_record "s1"
                      "dirigera_integration_empty_scene_r_shortcutController_0_singlePress";
                    record_without_icon ])
    by (right; left; reflexivity).
  assert (Hbad : HackScene.make_scene record_without_icon = Raise (KeyError "icon"))
    by reflexivity.
  split; [ exact Hin | split; [ exact Hbad | ] ].
  exact (proj1 (delete_empty_scenes_bad_record bad_listing_hub some_hub [] _ _ _ _
                  eq_refl eq_refl Hin Hbad)).
Defined.




(** ** Creation then deletion *)





(** ** The list getters *)

Lemma filter_by_total {A : Type} (p : A -> result bool) (pb : A -> bool) (l : list A) :
  Forall (fun a => p a = Ok (pb a)) l -> Py.filter_by p l = Ok (filter pb l).
Proof.
  induction 1 as [ | a l Ha _ IH ]; simpl; [ reflexivity | ].
  rewrite Ha, IH. destruct (pb a); reflexivity.
Qed.

Lemma filter_by_raise {A : Type} (p : A -> result bool) (l : list A) :
  (exists a e, In a l /\ p a = Raise e) -> exists e, Py.filter_by p l = Raise e.
Proof.
  intros (a & e & Hin & Ha). induction l as [ | x l IH ]; [ destruct Hin | ].
  simpl. destruct Hin as [-> | Hin].
  - rewrite Ha; eauto.
  - destruct (p x); [ | eauto ]. destruct (IH Hin) as [e' ->]; eauto.
Qed.

Lemma comprehension_cong {X A B : Type} (f g : A -> M X B) (l : list A) :
  (forall a, f a ~~ g a) -> comprehension l f ~~ comprehension l g.
Proof.
  intros Hfg; induction l as [ | a l IH ]; simpl; [ apply same_refl | ].
  apply bind_cong; [ apply Hfg | intros b ].
  apply bind_cong; [ exact IH | intros bs; apply same_refl ].
Qed.

Lemma construct_lift {X A : Type} {model : Model A} (data : value) :
  construct (X := X) data ~~ lift (constructed data).
Proof.
  intros hub self history. unfold construct, constructed.
  destruct (model_validate data); reflexivity.
Qed.

Section ListGetter.

Context {A : Type} {model : Model A}.
Variable p : value -> result bool.

(** The shape the three list getters share. *)
Let getter : M HubX (list A) :=
  devices <- call (Get "/devices") ;;
  items <- lift (Py.iter devices) ;;
  kept <- lift (Py.filter_by p items) ;;
  comprehension kept (fun data => construct data).

Lemma list_getter_run (hub : Hub) (self : HubX) (history : list Call) :
  getter hub self history
  = Outcome
      match hub history (Get "/devices") with
      | Fails msg => Raise (ExternalError msg)
      | Returns v =>
          match Py.iter v with
          | Raise e => Raise e
          | Ok items =>
              match Py.filter_by p items with
              | Raise e => Raise e
              | Ok kept => map_by constructed kept
              end
          end
      end
      self [Get "/devices"].
Proof.
  unfold getter.
  destruct (hub history (Get "/devices")) as [v | msg] eqn:Hget.
  - rewrite (bind_ok _ _ _ _ _ _ _ _ (call_returns _ _ _ _ _ Hget)).
    destruct (Py.iter v) as [items | e]; simpl lift; [ | reflexivity ].
    rewrite (bind_ret_l (X := HubX) items).
    destruct (Py.filter_by p items) as [kept | e]; simpl lift; [ | reflexivity ].
    rewrite (bind_ret_l (X := HubX) kept).
    rewrite (comprehension_cong _ (fun data => lift (constructed data)) kept
               (fun data => construct_lift data)).
    rewrite comprehension_lift.
    destruct (map_by constructed kept); reflexivity.
  - rewrite (bind_raise _ _ _ _ _ _ _ _ (call_fails _ _ _ _ _ Hget)). reflexivity.
Qed.

End ListGetter.

Lemma map_by_constructed {A : Type} {model : Model A} (records : list value)
    (objects : list A) :
  all_constructed records objects -> map_by constructed records = Ok objects.
Proof.
  intros H; apply map_by_ok. eapply Forall2_impl; [ | exact H ].
  intros data object Hd; unfold constructed; rewrite Hd; reflexivity.
Qed.

Lemma record_test_total (key : string) (test : value -> bool) (items : list value) :
  all_have key items ->
  Forall
    (fun x =>
       match Py.getitem x key with
       | Ok t => Ok (test t)
       | Raise e => Raise e
       end = Ok (record_passes key test x))
    items.
Proof.
  intros H; eapply Forall_impl; [ | exact H ].
  intros x [t Ht]; unfold record_passes; rewrite Ht; reflexivity.
Qed.

(** X17: when the hub lists device records that all have the key ["type"],
    [get_controllers] issues the one listing request and returns the
    objects constructed from the records whose ["type"] is ["controller"],
    one for one in the hub's order; the other records are skipped. *)
Theorem get_controllers_listing {model : Model ControllerX.t} (hub : Hub) (self : HubX)
    (history : list Call) (items : list value) (objects : list ControllerX.t) :
  hub history (Get "/devices") = Returns (VList items) ->
  all_have "type" items ->
  all_constructed (filter controller_record items) objects ->
  get_controllers hub self history = Outcome (Ok objects) self [Get "/devices"].
Proof.
  intros Hget Hkeys Hobjects.
  unfold get_controllers, dict_to_controller. rewrite list_getter_run, Hget.
  cbn [Py.iter].
  rewrite (filter_by_total _ controller_record items
             (record_test_total "type" (fun t => Py.eq_str t "controller") items Hkeys)).
  rewrite (map_by_constructed _ _ Hobjects). reflexivity.
Qed.

Lemma get_controllers_listing_witness :
  home_hub [] (Get "/devices") = Returns (VList home_devices) /\
  all_have "type" home_devices /\
  all_constructed (model := any_controller) (filter controller_record home_devices)
    [some_controller renamable] /\
  get_controllers (model := any_controller) home_hub some_hub []
  = Outcome (Ok [some_controller renamable]) some_hub [Get "/devices"].
Proof.
  assert (Hget : home_hub [] (Get "/devices") = Returns (VList home_devices))
    by reflexivity.
  assert (Hkeys : all_have "type" home_devices)
    by (repeat constructor; eexists; reflexivity).
  assert (Hobjects : all_constructed (model := any_controller)
                       (filter controller_record home_devices)
                       [some_controller renamable])
    by (repeat constructor).
  split; [ exact Hget | split; [ exact Hkeys | split; [ exact Hobjects | ] ] ].
  exact (get_controllers_listing (model := any_controller) home_hub some_hub []
           home_devices [some_controller renamable] Hget Hkeys Hobjects).
Defined.

(** X18: when the hub lists device records that all have the key
    ["deviceType"], [get_motion_sensors] issues the one listing request
    and returns the objects constructed from the records whose device type
    is ["motionSensor"] or ["occupancySensor"], one for one in the hub's
    order; the other records are skipped. *)
Theorem get_motion_sensors_listing {model : Model MotionSensorX.t} (hub : Hub)
    (self : HubX) (history : list Call) (items : list value)
    (objects : list MotionSensorX.t) :
  hub history (Get "/devices") = Returns (VList items) ->
  all_have "deviceType" items ->
  all_constructed (filter motion_record items) objects ->
  get_motion_sensors hub self history = Outcome (Ok objects) self [Get "/devices"].
Proof.
  intros Hget Hkeys Hobjects.
  unfold get_motion_sensors, dict_to_motion_sensor_x. rewrite list_getter_run, Hget.
  cbn [Py.iter].
  rewrite (filter_by_total _ motion_record items
             (record_test_total "deviceType"
                (fun t => Py.eq_str t "motionSensor" || Py.eq_str t "occupancySensor")
                items Hkeys)).
  rewrite (map_by_constructed _ _ Hobjects). reflexivity.
Qed.

Lemma get_motion_sensors_listing_witness :
  home_hub [] (Get "/devices") = Returns (VList home_devices) /\
  all_have "deviceType" home_devices /\
  all_constructed (model := any_motion_sensor) (filter motion_record home_devices)
    [some_motion_sensor renamable; some_motion_sensor renamable] /\
  get_motion_sensors (model := any_motion_sensor) home_hub some_hub []
  = Outcome (Ok [some_motion_sensor renamable; some_motion_sensor renamable])
      some_hub [Get "/devices"].
Proof.
  assert (Hget : home_hub [] (Get "/devices") = Returns (VList home_devices))
    by reflexivity.
  assert (Hkeys : all_have "deviceType" home_devices)
    by (repeat constructor; eexists; reflexivity).
  assert (Hobjects : all_constructed (model := any_motion_sensor)
                       (filter motion_record home_devices)
                       [some_motion_sensor renamable; some_motion_sensor renamable])
    by (repeat constructor).
  split; [ exact Hget | split; [ exact Hkeys | split; [ exact Hobjects | ] ] ].
  exact (get_motion_sensors_listing (model := any_motion_sensor) home_hub some_hub []
           home_devices _ Hget Hkeys Hobjects).
Defined.

(** X19: when the hub lists device records that all have the key
    ["deviceType"], [get_environment_sensors] issues the one listing
    request and returns the objects constructed from the records whose
    device type is ["environmentSensor"], one for one in the hub's order;
    the other records are skipped. *)
Theorem get_environment_sensors_listing {model : Model EnvironmentSensorX.t} (hub : Hub)
    (self : HubX) (history : list Call) (items : list value)
    (objects : list EnvironmentSensorX.t) :
  hub history (Get "/devices") = Returns (VList items) ->
  all_have "deviceType" items ->
  all_constructed (filter environment_record items) objects ->
  get_environment_sensors hub self history = Outcome (Ok objects) self [Get "/devices"].
Proof.
  intros Hget Hkeys Hobjects.
  unfold get_environment_sensors, dict_to_environment_sensor_x.
  rewrite list_getter_run, Hget. cbn [Py.iter].
  rewrite (filter_by_total _ environment_record items
             (record_test_total "deviceType"
                (fun t => Py.eq_str t "environmentSensor") items Hkeys)).
  rewrite (map_by_constructed _ _ Hobjects). reflexivity.
Qed.

Lemma get_environment_sensors_listing_witness :
  home_hub [] (Get "/devices") = Returns (VList home_devices) /\
  all_have "deviceType" home_devices /\
  all_constructed (model := any_environment_sensor)
    (filter environment_record home_devices) [some_environment_sensor renamable] /\
  get_environment_sensors (model := any_environment_sensor) home_hub some_hub []
  = Outcome (Ok [some_environment_sensor renamable]) some_hub [Get "/devices"].
Proof.
  assert (Hget : home_hub [] (Get "/devices") = Returns (VList home_devices))
    by reflexivity.
  assert (Hkeys : all_have "deviceType" home_devices)
    by (repeat constructor; eexists; reflexivity).
  assert (Hobjects : all_constructed (model := any_environment_sensor)
                       (filter environment_record home_devices)
                       [some_environment_sensor renamable])
    by (repeat constructor).
  split; [ exact Hget | split; [ exact Hkeys | split; [ exact Hobjects | ] ] ].
  exact (get_environment_sensors_listing (model := any_environment_sensor) home_hub
           some_hub [] home_devices _ Hget Hkeys Hobjects).
Defined.

(** X20: one listed record on which the test of a list getter raises (a
    record without the key, or a value that is no dict) fails the whole
    getter, whatever the type of that record: [get_controllers] needs
    ["type"] on every record, [get_motion_sensors] and
    [get_environment_sensors] need ["deviceType"] on every record. *)
Theorem list_getters_need_the_key
    {controllers : Model ControllerX.t} {motion : Model MotionSensorX.t}
    {environment : Model EnvironmentSensorX.t}
    (hub : Hub) (self : HubX) (history : list Call) (items : list value)
    (x : value) (e : exn) :
  hub history (Get "/devices") = Returns (VList items) ->
  In x items ->
  (Py.getitem x "type" = Raise e ->
   exists e', get_controllers hub self history
              = Outcome (Raise e') self [Get "/devices"]) /\
  (Py.getitem x "deviceType" = Raise e ->
   (exists e', get_motion_sensors hub self history
               = Outcome (Raise e') self [Get "/devices"]) /\
   (exists e', get_environment_sensors hub self history
               = Outcome (Raise e') self [Get "/devices"])).
Proof.
  intros Hget Hin. split; [ intros Hx | intros Hx; split ].
  - unfold get_controllers, dict_to_controller. rewrite list_getter_run, Hget.
    cbn [Py.iter].
    match goal with
    | |- context [Py.filter_by ?p items] =>
        destruct (filter_by_raise p items) as [e' ->];
          [ exists x, e; split; [ exact Hin | cbv beta; rewrite Hx; reflexivity ] | ]
    end.
    exists e'; reflexivity.
  - unfold get_motion_sensors, dict_to_motion_sensor_x. rewrite list_getter_run, Hget.
    cbn [Py.iter].
    match goal with
    | |- context [Py.filter_by ?p items] =>
        destruct (filter_by_raise p items) as [e' ->];
          [ exists x, e; split; [ exact Hin | cbv beta; rewrite Hx; reflexivity ] | ]
    end.
    exists e'; reflexivity.
  - unfold get_environment_sensors, dict_to_environment_sensor_x.
    rewrite list_getter_run, Hget. cbn [Py.iter].
    match goal with
    | |- context [Py.filter_by ?p items] =>
        destruct (filter_by_raise p items) as [e' ->];
          [ exists x, e; split; [ exact Hin | cbv beta; rewrite Hx; reflexivity ] | ]
    end.
    exists e'; reflexivity.
Qed.

Lemma list_getters_need_the_key_witness :
  In untyped_record [device_record "m1" "sensor" "motionSensor"; untyped_record] /\
  Py.getitem untyped_record "deviceType" = Raise (KeyError "deviceType") /\
  exists e',
    get_motion_sensors (model := any_motion_sensor) untyped_hub some_hub []
    = Outcome (Raise e') some_hub [Get "/devices"].
Proof.
  assert (Hin : In untyped_record
                  [device_record "m1" "sensor" "motionSensor"; untyped_record])
    by (right; left; reflexivity).
  assert (Hx : Py.getitem untyped_record "deviceType" = Raise (KeyError "deviceType"))
    by reflexivity.
  split; [ exact Hin | split; [ exact Hx | ] ].
  exact (proj1 (proj2 (list_getters_need_the_key
                         (controllers := any_controller) (motion := any_motion_sensor)
                         (environment := any_environment_sensor)
                         untyped_hub some_hub [] _ untyped_record _ eq_refl Hin) Hx)).
Defined.

(** X21: on a device record that has a ["deviceType"] and that the model
    class accepts, the by-id getter and the list getter apply the same
    test: a record of the getter's type is returned by both, and a record
    of another type makes the by-id getter raise [ValueError] while the
    list getter skips it without an error. *)
Theorem getters_agree
    {motion : Model MotionSensorX.t} {environment : Model EnvironmentSensorX.t}
    (self : HubX) (history : list Call) (id_ : string) (data t : value) :
  Py.getitem data "deviceType" = Ok t ->
  let one : Hub := fun _ _ => Returns data in
  let listing : Hub := fun _ _ => Returns (VList [data]) in
  (forall object, model_validate data = Some object ->
     if motion_type t
     then res (get_motion_sensor_by_id id_ one self history) = Ok object /\
          res (get_motion_sensors listing self history) = Ok [object]
     else res (get_motion_sensor_by_id id_ one self history)
          = Raise (ValueError "Device is not a MotionSensor or OccupancySensor") /\
          res (get_motion_sensors listing self history) = Ok []) /\
  (forall object, model_validate data = Some object ->
     if environment_type t
     then res (get_environment_sensor_by_id id_ one self history) = Ok object /\
          res (get_environment_sensors listing self history) = Ok [object]
     else res (get_environment_sensor_by_id id_ one self history)
          = Raise (ValueError "Device is not an EnvironmentSensor") /\
          res (get_environment_sensors listing self history) = Ok []).
Proof.
  intros Ht one listing; subst one listing. split; intros object Hobject.
  - rewrite get_motion_sensor_by_id_run, Ht.
    unfold get_motion_sensors, dict_to_motion_sensor_x. rewrite list_getter_run.
    cbn [Py.iter Py.filter_by]. rewrite Ht. fold (motion_type t).
    destruct (motion_type t); cbn [res map_by]; unfold constructed; rewrite ?Hobject;
      split; reflexivity.
  - rewrite get_environment_sensor_by_id_run, Ht.
    unfold get_environment_sensors, dict_to_environment_sensor_x.
    rewrite list_getter_run. cbn [Py.iter Py.filter_by]. rewrite Ht.
    fold (environment_type t).
    destruct (environment_type t); cbn [res map_by]; unfold constructed;
      rewrite ?Hobject; split; reflexivity.
Qed.

Lemma getters_agree_witness :
  Py.getitem (device_record "l1" "light" "light") "deviceType" = Ok (VStr "light") /\
  res (get_motion_sensor_by_id (model := any_motion_sensor) "l1"
         (fun _ _ => Returns (device_record "l1" "light" "light")) some_hub [])
  = Raise (ValueError "Device is not a MotionSensor or OccupancySensor") /\
  res (get_motion_sensors (model := any_motion_sensor)
         (fun _ _ => Returns (VList [device_record "l1" "light" "light"])) some_hub [])
  = Ok [].
Proof.
  assert (Ht : Py.getitem (device_record "l1" "light" "light") "deviceType"
               = Ok (VStr "light")) by reflexivity.
  split; [ exact Ht | ].
  exact (proj1 (getters_agree (motion := any_motion_sensor)
                  (environment := any_environment_sensor) some_hub [] "l1"
                  (device_record "l1" "light" "light") (VStr "light") Ht)
           (some_motion_sensor renamable) eq_refl).
Defined.

(** ** More on [set_name], and [reload] *)

Lemma In_mem (s : string) (l : list string) : In s l -> Py.mem s l = true.
Proof. apply mem_In. Qed.

Section Rename.

Context {A : Type}.
Variable set_custom_name : string -> A -> A.
Variable set_name : string -> M (Device.t A) unit.
Variable message : string.

(** What the three run lemmas of [set_name] say. *)
Hypothesis set_name_run :
  forall hub history name (self : Device.t A),
    set_name name hub self history
    = if Py.mem "customName" (can_receive (Device.capabilities self)) then
        match hub history (rename_request (Device.id self) name) with
        | Returns _ =>
            Outcome (Ok tt)
              (Device.with_attributes (set_custom_name name (Device.attributes self)) self)
              [rename_request (Device.id self) name]
        | Fails msg =>
            Outcome (Raise (ExternalError msg)) self
              [rename_request (Device.id self) name]
        end
      else Outcome (Raise (AssertionError message)) self [].

Lemma renames_consistently_of_run : renames_consistently set_custom_name set_name.
Proof.
  intros hub self history name Hcap o request; subst o request.
  rewrite set_name_run, (In_mem _ _ Hcap).
  destruct (hub history (rename_request (Device.id self) name)) as [v | msg].
  - split; [ reflexivity | split ].
    + intros v' _; split; reflexivity.
    + intros msg H; discriminate H.
  - split; [ reflexivity | split ].
    + intros v H; discriminate H.
    + intros msg' [= <-]; split; reflexivity.
Qed.

(** A later name overwrites an earlier one. *)
Hypothesis set_custom_name_twice :
  forall first second a,
    set_custom_name second (set_custom_name first a) = set_custom_name second a.

Lemma last_rename_wins_of_run : last_rename_wins set_name.
Proof.
  intros hub self history first second Hcap Hacc o; subst o.
  pose proof (In_mem _ _ Hcap) as Hmem.
  assert (Hfirst : set_name first hub self history
                   = Outcome (Ok tt)
                       (Device.with_attributes
                          (set_custom_name first (Device.attributes self)) self)
                       [rename_request (Device.id self) first]).
  { rewrite set_name_run, Hmem.
    destruct (Hacc history (rename_request (Device.id self) first)) as [v ->].
    reflexivity. }
  rewrite (bind_ok _ _ _ _ _ _ _ _ Hfirst).
  rewrite !set_name_run. cbn [Device.with_attributes Device.capabilities Device.id
    Device.attributes]. rewrite Hmem.
  destruct (Hacc (history ++ [rename_request (Device.id self) first])
              (rename_request (Device.id self) second)) as [v ->].
  destruct (Hacc history (rename_request (Device.id self) second)) as [v' ->].
  cbn [res issued self_after app].
  split; [ reflexivity | split; [ reflexivity | ] ].
  rewrite set_custom_name_twice. reflexivity.
Qed.

End Rename.

(** X22: for controllers, motion sensors and environment sensors that can
    receive ["customName"], [set_name] sends exactly one request, the patch
    of the device's own route with the new name, and the local name
    changes exactly when the hub answered it: on a hub failure the
    exception is the hub's and the device is as it was.  The rename changes
    [custom_name] and no other attribute. *)
Theorem set_name_consistent :
  renames_consistently ControllerAttributesX.set_custom_name ControllerX.set_name /\
  renames_consistently MotionSensorAttributesX.set_custom_name MotionSensorX.set_name /\
  renames_consistently EnvironmentSensorAttributesX.set_custom_name
    EnvironmentSensorX.set_name /\
  (forall name a,
     let a' := ControllerAttributesX.set_custom_name name a in
     ControllerAttributesX.custom_name a' = name /\
     ControllerAttributesX.is_on a' = ControllerAttributesX.is_on a /\
     ControllerAttributesX.battery_percentage a'
     = ControllerAttributesX.battery_percentage a /\
     ControllerAttributesX.switch_label a' = ControllerAttributesX.switch_label a) /\
  (forall name a,
     let a' := MotionSensorAttributesX.set_custom_name name a in
     MotionSensorAttributesX.custom_name a' = name /\
     MotionSensorAttributesX.battery_percentage a'
     = MotionSensorAttributesX.battery_percentage a /\
     MotionSensorAttributesX.is_on a' = MotionSensorAttributesX.is_on a /\
     MotionSensorAttributesX.light_level a' = MotionSensorAttributesX.light_level a /\
     MotionSensorAttributesX.is_detected a' = MotionSensorAttributesX.is_detected a) /\
  (forall name a,
     let a' := EnvironmentSensorAttributesX.set_custom_name name a in
     EnvironmentSensorAttributesX.custom_name a' = name /\
     EnvironmentSensorAttributesX.current_temperature a'
     = EnvironmentSensorAttributesX.current_temperature a /\
     EnvironmentSensorAttributesX.current_r_h a'
     = EnvironmentSensorAttributesX.current_r_h a /\
     EnvironmentSensorAttributesX.current_p_m25 a'
     = EnvironmentSensorAttributesX.current_p_m25 a /\
     EnvironmentSensorAttributesX.max_measured_p_m25 a'
     = EnvironmentSensorAttributesX.max_measured_p_m25 a /\
     EnvironmentSensorAttributesX.min_measured_p_m25 a'
     = EnvironmentSensorAttributesX.min_measured_p_m25 a /\
     EnvironmentSensorAttributesX.voc_index a' = EnvironmentSensorAttributesX.voc_index a /\
     EnvironmentSensorAttributesX.battery_percentage a'
     = EnvironmentSensorAttributesX.battery_percentage a /\
     EnvironmentSensorAttributesX.current_c_o2 a'
     = EnvironmentSensorAttributesX.current_c_o2 a).
Proof.
  split; [ | split; [ | split; [ | split; [ | split ] ] ] ].
  - eapply renames_consistently_of_run.
    intros hub history name self; apply controller_set_name_run.
  - eapply renames_consistently_of_run.
    intros hub history name self; apply motion_sensor_set_name_run.
  - eapply renames_consistently_of_run.
    intros hub history name self; apply environment_sensor_set_name_run.
  - intros name a a'; repeat split.
  - intros name a a'; repeat split.
  - intros name a a'; repeat split.
Qed.

Lemma set_name_consistent_witness :
  In "customName"%string (can_receive (Device.capabilities (some_controller renamable))) /\
  hub_failing_after 0 [] (rename_request "c1" "Desk") = Fails "hub unavailable" /\
  res (ControllerX.set_name "Desk" (hub_failing_after 0) (some_controller renamable) [])
  = Raise (ExternalError "hub unavailable") /\
  self_after
    (ControllerX.set_name "Desk" (hub_failing_after 0) (some_controller renamable) [])
  = some_controller renamable.
Proof.
  assert (Hcap : In "customName"%string
                   (can_receive (Device.capabilities (some_controller renamable))))
    by (left; reflexivity).
  assert (Hfail : hub_failing_after 0 [] (rename_request "c1" "Desk")
                  = Fails "hub unavailable") by reflexivity.
  split; [ exact Hcap | split; [ exact Hfail | ] ].
  destruct set_name_consistent as (Hcontroller & _).
  destruct (Hcontroller (hub_failing_after 0) (some_controller renamable) []
              "Desk"%string Hcap) as (_ & _ & Hfails).
  exact (Hfails _ Hfail).
Defined.

(** X23: two renames in a row against a hub that answers every request
    send two patch requests in the order of the calls, and leave the device
    as the second rename alone would: the last name wins. *)
Theorem set_name_twice :
  last_rename_wins ControllerX.set_name /\
  last_rename_wins MotionSensorX.set_name /\
  last_rename_wins EnvironmentSensorX.set_name.
Proof.
  split; [ | split ].
  - eapply (last_rename_wins_of_run ControllerAttributesX.set_custom_name).
    + intros hub history name self; apply controller_set_name_run.
    + reflexivity.
  - eapply (last_rename_wins_of_run MotionSensorAttributesX.set_custom_name).
    + intros hub history name self; apply motion_sensor_set_name_run.
    + reflexivity.
  - eapply (last_rename_wins_of_run EnvironmentSensorAttributesX.set_custom_name).
    + intros hub history name self; apply environment_sensor_set_name_run.
    + reflexivity.
Qed.

Lemma set_name_twice_witness :
  In "customName"%string (can_receive (Device.capabilities (some_controller renamable))) /\
  (forall h c, exists v, quiet_hub h c = Returns v) /\
  self_after
    ((ControllerX.set_name "Desk" ;; ControllerX.set_name "Sofa")
       quiet_hub (some_controller renamable) [])
  = self_after (ControllerX.set_name "Sofa" quiet_hub (some_controller renamable) []).
Proof.
  assert (Hcap : In "customName"%string
                   (can_receive (Device.capabilities (some_controller renamable))))
    by (left; reflexivity).
  assert (Hacc : forall h c, exists v, quiet_hub h c = Returns v)
    by (intros h c; exists VNone; reflexivity).
  split; [ exact Hcap | split; [ exact Hacc | ] ].
  destruct set_name_twice as (Hcontroller & _).
  destruct (Hcontroller quiet_hub (some_controller renamable) [] "Desk"%string
              "Sofa"%string Hcap Hacc) as (_ & _ & Hself).
  exact Hself.
Defined.

Ltac reload_cases hub history self :=
  intros hub self history o request; subst o request;
  unfold bind, get_self, call; cbn [res self_after issued];
  rewrite !app_nil_r;
  destruct (hub history (Get ("/devices/" ++ Device.id self))) as [v | msg];
    cbn [res self_after issued app]; [ | repeat split ];
  destruct v; cbn [Py.kwargs lift ret raise res self_after issued app];
    try (repeat split; fail);
  unfold construct, constructed; destruct (model_validate _); repeat split.

(** X24: [reload] of a controller, of a motion sensor and of an environment
    sensor issues one request, for the device's own record, never changes
    the object it is called on, and returns the object the model class
    constructs from the record; an answer that is no dict raises
    [TypeError] and a hub failure is passed on.  [HackScene.reload] reads an
    attribute the class never sets: it issues no request and raises
    [AttributeError] against every hub. *)
Theorem reload_from_hub
    {controllers : Model ControllerX.t} {motion : Model MotionSensorX.t}
    {environment : Model EnvironmentSensorX.t} :
  reloads_from_hub ControllerX.reload /\
  reloads_from_hub MotionSensorX.reload /\
  reloads_from_hub EnvironmentSensorX.reload /\
  (forall hub self history,
     exists msg,
       HackScene.reload hub self history = Outcome (Raise (AttributeError msg)) self []).
Proof.
  split; [ | split; [ | split ] ].
  - unfold ControllerX.reload. reload_cases hub history self.
  - unfold MotionSensorX.reload. reload_cases hub history self.
  - unfold EnvironmentSensorX.reload. reload_cases hub history self.
  - intros hub self history; eexists; reflexivity.
Qed.

Example controller_reload :
  ControllerX.reload (model := any_controller) home_hub (some_controller fixed_name) []
  = Outcome (Raise (TypeError "argument after ** must be a mapping"))
      (some_controller fixed_name) [Get "/devices/c1"] /\
  ControllerX.reload (model := any_controller)
    (fun _ _ => Returns (device_record "c1" "controller" "shortcutController"))
    (some_controller fixed_name) []
  = Outcome (Ok (some_controller renamable)) (some_controller fixed_name)
      [Get "/devices/c1"].
Proof. split; reflexivity. Qed.

(** ** The pattern and the flag, in full *)

(** X1: [re.search] with the pattern of [create_empty_scene] finds a match
    exactly when the controller id is some text without a newline, an
    underscore, one or more digits, and then nothing or one final newline;
    the two groups of the match are that text and those digits, and an id
    has at most one such reading. *)
Theorem pattern_search_exact (subject : string) :
  (forall m, Re.search subject = Some m <-> matches subject m) /\
  (Re.search subject = None <-> forall m, ~ matches subject m) /\
  (forall m m', matches subject m -> matches subject m' -> m = m').
Proof.
  split; [ intros m; apply search_spec | split; [ apply search_none | ] ].
  intros m m'; apply matches_unique.
Qed.

(** X2: the flag [allow_multibutton] is set exactly when the button count
    is above 1 and the pattern either does not match the controller id or
    matches it with the digits ["1"]; on an id without a newline this is:
    the count is above 1 and the id has no numeric suffix or the suffix
    [_1]. *)
Theorem allow_multibutton_decides (controller_id : string) (n : Z) :
  (allow_multibutton controller_id n = true <->
   n > 1 /\ (forall m, matches controller_id m -> Re.group2 m = "1"%string)) /\
  (Str.contains Str.newline controller_id = false ->
   (allow_multibutton controller_id n = true <->
    n > 1 /\ Suffix.primary controller_id)).
Proof.
  split; [ apply allow_multibutton_spec | ].
  intros Hplain; apply allow_multibutton_plain; exact Hplain.
Qed.

Lemma allow_multibutton_decides_witness :
  Str.contains Str.newline "remote_1" = false /\
  (allow_multibutton "remote_1" 4 = true <-> 4 > 1 /\ Suffix.primary "remote_1").
Proof.
  assert (Hplain : Str.contains Str.newline "remote_1" = false) by reflexivity.
  split; [ exact Hplain | ].
  exact (proj2 (allow_multibutton_decides "remote_1" 4) Hplain).
Defined.
